(** * Wildfire exposure of Alberta pipelines: the chunked zonal statistics,
      the exposure flag, the min-max normaliser and the export frame

    Shallow embedding of [wildfire_exposure_v02.py], stages 2 to 4 of the
    script: [run_chunked_zonal_stats], the two list comprehensions that
    derive [burn_mean] and [burn_exposed], the pandas expression for
    [burn_norm], and the column bookkeeping up to [pipe.to_file].

    Conventions of the embedding.
    - Python integers are [Z]; [len] is [Z.of_nat (length _)].
    - A float64 value is NaN, an infinity, or the rational it denotes; the
      sign of zero is not represented.  Comparisons are exact.  pandas
      stores a missing value of a float column as NaN, so NaN is the null
      of a float column.
    - The subtraction and the division of lines 95-96 round their result
      and can overflow.  [burn_norm_with] is the normaliser over any
      subtraction and division, and a property that depends on the
      arithmetic names the IEEE 754 facts it uses ([propagates_nan],
      [float_arith]).  [fsub] and [fdiv] are the exact operations on the
      rationals; [burn_norm] is the normaliser with them.
    - A Python exception is the [Raise] outcome of a computation; printing,
      the calls into rasterstats and the file export are events of a trace.
    - rasterstats, the buffer operation and the raster file are outside the
      script: they are variables of the sections below. *)

From Stdlib Require Import ZArith QArith Qreduction Lia Lqa.
From stdpp Require Import base option list gmap strings.

Local Open Scope Z_scope.

(** ** Idealised float64 *)

Inductive float64 : Type :=
  | NaN
  | PosInf
  | NegInf
  | Fin (q : Q).

Definition isnan (x : float64) : bool :=
  match x with NaN => true | _ => false end.

Definition is_finite (x : float64) : bool :=
  match x with Fin _ => true | _ => false end.

Definition Qltb (a b : Q) : bool := negb (Qle_bool b a).

(** IEEE comparison [x < y]: false as soon as one side is NaN. *)
Definition fltb (x y : float64) : bool :=
  match x, y with
  | NaN, _ | _, NaN => false
  | NegInf, NegInf => false
  | NegInf, _ => true
  | _, NegInf => false
  | PosInf, _ => false
  | Fin _, PosInf => true
  | Fin a, Fin b => Qltb a b
  end.

(** IEEE comparison [x == y]: NaN is equal to nothing. *)
Definition feqb (x y : float64) : bool :=
  match x, y with
  | PosInf, PosInf | NegInf, NegInf => true
  | Fin a, Fin b => Qeq_bool a b
  | _, _ => false
  end.

Definition fsub (x y : float64) : float64 :=
  match x, y with
  | NaN, _ | _, NaN => NaN
  | PosInf, PosInf | NegInf, NegInf => NaN
  | PosInf, _ => PosInf
  | NegInf, _ => NegInf
  | Fin _, PosInf => NegInf
  | Fin _, NegInf => PosInf
  | Fin a, Fin b => Fin (Qred (a - b))
  end.

(** numpy true division: a finite non-zero value over zero is an infinity,
    zero over zero is NaN, and no exception is raised. *)
Definition fdiv (x y : float64) : float64 :=
  match x, y with
  | NaN, _ | _, NaN => NaN
  | (PosInf | NegInf), (PosInf | NegInf) => NaN
  | PosInf, Fin b => if Qltb b 0 then NegInf else PosInf
  | NegInf, Fin b => if Qltb b 0 then PosInf else NegInf
  | Fin _, (PosInf | NegInf) => Fin 0
  | Fin a, Fin b =>
      if Qeq_bool b 0 then
        if Qeq_bool a 0 then NaN
        else if Qltb a 0 then NegInf else PosInf
      else Fin (Qred (a / b))
  end.

(** ** Python values, exceptions and outcomes *)

Inductive pyval : Type :=
  | PyNone
  | PyInt (z : Z)
  | PyFloat (f : float64).

Inductive exn : Type :=
  | ValueError
  | KeyError (key : string)
  | TypeError
  | LibraryError (code : Z).

Inductive result (A : Type) : Type :=
  | Ok (a : A)
  | Raise (e : exn).
Arguments Ok {A} a.
Arguments Raise {A} e.

(** The numeric value of a Python number; [None] has none. *)
Definition as_number (v : pyval) : option float64 :=
  match v with
  | PyNone => None
  | PyInt z => Some (Fin (inject_Z z))
  | PyFloat f => Some f
  end.

(** [a != b].  [None] differs from every number; never raises. *)
Definition py_ne (a b : pyval) : bool :=
  match as_number a, as_number b with
  | None, None => false
  | Some x, Some y => negb (feqb x y)
  | _, _ => true
  end.

(** [a > b].  Ordering [None] against anything is a TypeError. *)
Definition py_gt (a b : pyval) : result bool :=
  match as_number a, as_number b with
  | Some x, Some y => Ok (fltb y x)
  | _, _ => Raise TypeError
  end.

(** A per-feature result of rasterstats: a dict, or [None]. *)
Abbreviation pydict := (gmap string pyval).
Abbreviation stats_record := (option (gmap string pyval)).

(** [d[k]]. *)
Definition getitem (d : pydict) (k : string) : result pyval :=
  match d !! k with
  | Some v => Ok v
  | None => Raise (KeyError k)
  end.

(** [d.get(k, dflt)]. *)
Definition dict_get (d : pydict) (k : string) (dflt : pyval) : pyval :=
  default dflt (d !! k).

(** Truth value of [s] in [if s] / [s and ...]: [None] and the empty dict
    are false. *)
Definition truthy (s : stats_record) : bool :=
  match s with
  | None => false
  | Some d => negb (bool_decide (d = ∅))
  end.

Definition NODATA_SENTINEL : Z := 65535.

(** Line 83: [s["mean"] if s else None]. *)
Definition burn_mean_of (s : stats_record) : result pyval :=
  match s with
  | Some d => if truthy s then getitem d "mean" else Ok PyNone
  | None => Ok PyNone
  end.

(** Lines 84-86:
    [1 if s and s["min"] != 65535 and s["count"] > s.get("nodata", 0) else 0],
    evaluated left to right with short circuit. *)
Definition burn_exposed_of (s : stats_record) : result Z :=
  match s with
  | None => Ok 0
  | Some d =>
      if truthy s then
        match getitem d "min" with
        | Raise e => Raise e
        | Ok mn =>
            if py_ne mn (PyInt NODATA_SENTINEL) then
              match getitem d "count" with
              | Raise e => Raise e
              | Ok cnt =>
                  match py_gt cnt (dict_get d "nodata" (PyInt 0)) with
                  | Raise e => Raise e
                  | Ok true => Ok 1
                  | Ok false => Ok 0
                  end
              end
            else Ok 0
        end
      else Ok 0
  end.

(** A list comprehension [[f(s) for s in xs]]: the first exception aborts. *)
Fixpoint comprehension {A B} (f : A -> result B) (xs : list A) : result (list B) :=
  match xs with
  | [] => Ok []
  | x :: xs' =>
      match f x with
      | Raise e => Raise e
      | Ok y =>
          match comprehension f xs' with
          | Raise e => Raise e
          | Ok ys => Ok (y :: ys)
          end
      end
  end.

(** ** pandas Series of float64 *)

(** Assigning a Python list of floats and [None]s to a column: [None]
    becomes NaN. *)
Definition to_float64 (v : pyval) : float64 :=
  match v with
  | PyNone => NaN
  | PyInt z => Fin (inject_Z z)
  | PyFloat f => f
  end.

Definition fmin (a b : float64) : float64 := if fltb b a then b else a.
Definition fmax (a b : float64) : float64 := if fltb a b then b else a.

Definition dropna (l : list float64) : list float64 :=
  List.filter (fun x => negb (isnan x)) l.

(** [Series.min()] with the default [skipna=True]: NaN when nothing is left. *)
Definition series_min (l : list float64) : float64 :=
  match dropna l with
  | [] => NaN
  | x :: xs => fold_left fmin xs x
  end.

Definition series_max (l : list float64) : float64 :=
  match dropna l with
  | [] => NaN
  | x :: xs => fold_left fmax xs x
  end.

Definition series_sub_scalar (l : list float64) (c : float64) : list float64 :=
  map (fun x => fsub x c) l.

Definition series_div_scalar (l : list float64) (c : float64) : list float64 :=
  map (fun x => fdiv x c) l.

(** Lines 95-96, with the exact operations [fsub] and [fdiv]. *)
Definition burn_norm (burn_mean : list float64) : list float64 :=
  series_div_scalar
    (series_sub_scalar burn_mean (series_min burn_mean))
    (fsub (series_max burn_mean) (series_min burn_mean)).

(** Lines 95-96 once more, with the subtraction and the true division of
    float64 as parameters.  numpy rounds every result to the nearest
    float64 and lets a difference overflow to an infinity, which [fsub] and
    [fdiv] do not; comparisons, and so [series_min] and [series_max], are
    exact on float64.  [burn_norm] is [burn_norm_with fsub fdiv]. *)
Definition burn_norm_with (sub div : float64 -> float64 -> float64)
    (burn_mean : list float64) : list float64 :=
  map (fun x => div x (sub (series_max burn_mean) (series_min burn_mean)))
      (map (fun x => sub x (series_min burn_mean)) burn_mean).

(** An operation with a NaN operand gives NaN. *)
Definition propagates_nan (op : float64 -> float64 -> float64) : Prop :=
  (forall y, op NaN y = NaN) /\ (forall x, op x NaN = NaN).

(** What the properties below use of IEEE 754 subtraction and division
    in round-to-nearest, on finite operands:
    - the result depends on the values of the operands only;
    - [x - x] is zero;
    - for [a < b] the difference [b - a] is positive (the subnormal numbers
      keep it from rounding to zero) or has overflowed to +infinity;
    - zero over a positive number or over +infinity is zero;
    - [d / d] is one for a positive finite [d].
    The operations are total on the values of the model; on rationals that
    are no float64 numbers they may be any operations with these
    properties, the exact ones for instance. *)
Record float_arith (sub div : float64 -> float64 -> float64) : Prop := {
  fa_sub_nan : propagates_nan sub;
  fa_div_nan : propagates_nan div;
  fa_sub_ext : forall q q' a, (q == q')%Q -> sub (Fin q) (Fin a) = sub (Fin q') (Fin a);
  fa_sub_self : forall q q', (q == q')%Q -> sub (Fin q) (Fin q') = Fin 0;
  fa_sub_pos : forall a b, (a < b)%Q ->
    sub (Fin b) (Fin a) = PosInf \/
    exists d, sub (Fin b) (Fin a) = Fin d /\ (0 < d)%Q;
  fa_div_zero : forall d, (0 < d)%Q -> div (Fin 0) (Fin d) = Fin 0;
  fa_div_zero_inf : div (Fin 0) PosInf = Fin 0;
  fa_div_self : forall d, (0 < d)%Q -> div (Fin d) (Fin d) = Fin 1
}.

(** ** Python [len], [range] and slicing *)

Definition len {A} (l : list A) : Z := Z.of_nat (length l).

(** Number of items of [range(lo, hi, step)] for a non-zero step. *)
Definition range_length (lo hi step : Z) : Z :=
  if (0 <? step) && (lo <? hi) then 1 + (hi - 1 - lo) / step
  else if (step <? 0) && (hi <? lo) then 1 + (lo - 1 - hi) / (- step)
  else 0.

Fixpoint range_items (lo step : Z) (n : nat) : list Z :=
  match n with
  | O => []
  | S n' => lo :: range_items (lo + step) step n'
  end.

Definition py_range (lo hi step : Z) : result (list Z) :=
  if step =? 0 then Raise ValueError
  else Ok (range_items lo step (Z.to_nat (range_length lo hi step))).

(** A slice bound is clamped into [0, len]; a negative bound counts from
    the end. *)
Definition slice_bound (len i : Z) : Z :=
  if i <? 0 then Z.max (i + len) 0 else Z.min i len.

(** [l[start:stop]] and [df.iloc[start:stop]]. *)
Definition iloc_slice {A} (l : list A) (start stop : Z) : list A :=
  let a := slice_bound (len l) start in
  let b := slice_bound (len l) stop in
  take (Z.to_nat (b - a)) (drop (Z.to_nat a) l).

(** ** Traces and the computation monad *)

Definition DEFAULT_CHUNK_SIZE : Z := 10000.
Definition DEFAULT_NODATA : Z := 65535.

Definition REQUESTED_STATS : list string := ["mean"; "min"; "count"; "nodata"].

Definition BUFFER_COLUMN : string := "buffer_500m".
Definition BUFFER_DISTANCE : Z := 500.

Definition geojson_out : string :=
  "/home/gwilly/Documents/LinkedIn/Wildfire Exposure/Outputs/pipeline_wildfire_exposure_v02.geojson".

(** The status lines the script prints, by their arguments. *)
Inductive message : Type :=
  | MsgBuffering
  | MsgCalculating
  | MsgStarting (total chunk_size : Z)
  | MsgProcessing (first last : Z)
  | MsgSaved (path : string).

Section Traces.

Context {geometry polygon raster : Type}.

(** The keyword arguments of one [zonal_stats] call. *)
Record zs_args : Type := ZsArgs {
  zs_vectors : list polygon;
  zs_raster : raster;
  zs_stats : list string;
  zs_nodata : Z;
  zs_geojson_out : bool
}.

Inductive column : Type :=
  | ColGeometry (gs : list geometry)
  | ColPolygon (ps : list polygon)
  | ColObject (vs : list pyval)
  | ColFloat (fs : list float64)
  | ColInt (zs : list Z).

(** A GeoDataFrame: its columns in order, and the name of the active
    geometry column. *)
Record frame : Type := Frame {
  columns : list (string * column);
  geometry_name : string
}.

Inductive event : Type :=
  | EvPrint (m : message)
  | EvZonalStats (a : zs_args)
  | EvToFile (path driver : string) (f : frame).

Definition M (A : Type) : Type := (list event * result A)%type.

Definition ret {A} (a : A) : M A := ([], Ok a).

Definition bind {A B} (m : M A) (k : A -> M B) : M B :=
  match m with
  | (t, Ok a) => let '(t', r) := k a in (t ++ t', r)
  | (t, Raise e) => (t, Raise e)
  end.

Definition emit (e : event) : M unit := ([e], Ok tt).
Definition print (m : message) : M unit := emit (EvPrint m).
Definition lift {A} (r : result A) : M A := ([], r).

Definition trace {A} (m : M A) : list event := fst m.
Definition outcome {A} (m : M A) : result A := snd m.

Definition is_call (e : event) : option zs_args :=
  match e with EvZonalStats a => Some a | _ => None end.

(** The [zonal_stats] calls of a trace, in order. *)
Definition calls_of (t : list event) : list zs_args := omap is_call t.



End Traces.

Arguments zs_args : clear implicits.
Arguments column : clear implicits.
Arguments frame : clear implicits.
Arguments event : clear implicits.
Arguments M : clear implicits.

Notation "'let*' x := m 'in' k" := (bind m (fun x => k))
  (at level 10, x name, m at level 100, k at level 200).
Notation "m ;;; k" := (bind m (fun _ => k))
  (at level 100, k at level 200, right associativity).

Section Script.

Context {geometry polygon raster : Type}.

(** [rasterstats.zonal_stats], with whatever the raster file holds. *)
Variable zonal_stats : zs_args polygon raster -> result (list stats_record).

(** [GeoSeries.buffer] on one geometry. *)
Variable buffer : geometry -> Z -> polygon.

Local Abbreviation M := (M geometry polygon raster).

Definition call_zonal_stats (a : zs_args polygon raster) : M (list stats_record) :=
  bind (emit (EvZonalStats a)) (fun _ => lift (zonal_stats a)).

(** [for x in xs: state = body(x, state)]. *)
Fixpoint for_each {A S} (xs : list A) (body : A -> S -> M S) (s : S) : M S :=
  match xs with
  | [] => ret s
  | x :: xs' => let* s' := body x s in for_each xs' body s'
  end.

(** Lines 58-78. *)
Definition run_chunked_zonal_stats
    (gdf : list polygon) (raster_path : raster) (chunk_size nodata : Z)
    : M (list stats_record) :=
  let all_stats := [] in
  let total := len gdf in
  print (MsgStarting total chunk_size) ;;;
  let* starts := lift (py_range 0 total chunk_size) in
  for_each starts (fun start all_stats =>
    let end_ := Z.min (start + chunk_size) total in
    let chunk := iloc_slice gdf start end_ in
    print (MsgProcessing start (end_ - 1)) ;;;
    let* stats := call_zonal_stats
                    {| zs_vectors := chunk;
                       zs_raster := raster_path;
                       zs_stats := REQUESTED_STATS;
                       zs_nodata := nodata;
                       zs_geojson_out := false |} in
    ret (all_stats ++ stats)) all_stats.

(** Line 81: the call that leaves [chunk_size] and [nodata] to the
    defaults of the signature. *)
Definition run_chunked_zonal_stats_defaults
    (gdf : list polygon) (raster_path : raster) : M (list stats_record) :=
  run_chunked_zonal_stats gdf raster_path DEFAULT_CHUNK_SIZE DEFAULT_NODATA.

(** *** Columns of a frame *)

(** [df[name]]. *)
Fixpoint get_column (cols : list (string * column geometry polygon)) (name : string)
    : result (column geometry polygon) :=
  match cols with
  | [] => Raise (KeyError name)
  | (n, c) :: rest => if String.eqb n name then Ok c else get_column rest name
  end.

(** [df[name] = c]: an existing column is overwritten in place, a new
    one is appended after the others. *)
Fixpoint set_column (cols : list (string * column geometry polygon))
    (name : string) (c : column geometry polygon)
    : list (string * column geometry polygon) :=
  match cols with
  | [] => [(name, c)]
  | (n, c0) :: rest =>
      if String.eqb n name then (n, c) :: rest
      else (n, c0) :: set_column rest name c
  end.

Definition has_column (cols : list (string * column geometry polygon)) (name : string)
    : bool :=
  existsb (fun nc => String.eqb (fst nc) name) cols.

(** [df.drop(columns=name)]: a missing label is a KeyError. *)
Definition drop_column (cols : list (string * column geometry polygon)) (name : string)
    : result (list (string * column geometry polygon)) :=
  if has_column cols name
  then Ok (List.filter (fun nc => negb (String.eqb (fst nc) name)) cols)
  else Raise (KeyError name).

Definition setitem (df : frame geometry polygon) (name : string)
    (c : column geometry polygon) : frame geometry polygon :=
  {| columns := set_column (columns df) name c;
     geometry_name := geometry_name df |}.

(** [df.geometry]: the active geometry column. *)
Definition frame_geometry (df : frame geometry polygon) : result (list geometry) :=
  match get_column (columns df) (geometry_name df) with
  | Ok (ColGeometry gs) => Ok gs
  | Ok _ => Raise TypeError
  | Raise e => Raise e
  end.

(** [df[name] = values] for a Python list: its length must be the number
    of rows. *)
Definition check_length {A} (rows : Z) (values : list A) : result (list A) :=
  if len values =? rows then Ok values else Raise ValueError.

(** [df.to_file(path, driver=...)]: needs the geometry column. *)
Definition to_file (df : frame geometry polygon) (path driver : string) : M unit :=
  let* _ := lift (frame_geometry df) in
  emit (EvToFile path driver df).

(** The columns of [pipe] just before the buffer column is dropped. *)
Definition enriched_columns (pipe : frame geometry polygon)
    (buffered : list polygon) (means : list float64) (flags : list Z)
    : list (string * column geometry polygon) :=
  set_column
    (set_column
       (set_column
          (set_column (columns pipe) BUFFER_COLUMN (ColPolygon buffered))
          "burn_mean" (ColFloat means))
       "burn_exposed" (ColInt flags))
    "burn_norm" (ColFloat (burn_norm means)).

(** Lines 50-106, from the buffering to the export.  [buffered] holds
    the one column [buffer_500m] of [pipe] and shares its index, so the
    column assignments from [buffered] to [pipe] copy the values row by
    row. *)
Definition script (pipe : frame geometry polygon) (fire_file : raster)
    : M (frame geometry polygon) :=
  print MsgBuffering ;;;
  let* geoms := lift (frame_geometry pipe) in
  let buffered := map (fun g => buffer g BUFFER_DISTANCE) geoms in
  let pipe := setitem pipe BUFFER_COLUMN (ColPolygon buffered) in
  print MsgCalculating ;;;
  let* burn_stats := run_chunked_zonal_stats_defaults buffered fire_file in
  let* means := lift (comprehension burn_mean_of burn_stats) in
  let* means := lift (check_length (len buffered) means) in
  let buffered_burn_mean := map to_float64 means in
  let* flags := lift (comprehension burn_exposed_of burn_stats) in
  let* buffered_burn_exposed := lift (check_length (len buffered) flags) in
  let pipe := setitem pipe "burn_mean" (ColFloat buffered_burn_mean) in
  let pipe := setitem pipe "burn_exposed" (ColInt buffered_burn_exposed) in
  let pipe := setitem pipe "burn_norm" (ColFloat (burn_norm buffered_burn_mean)) in
  let* cols := lift (drop_column (columns pipe) BUFFER_COLUMN) in
  let pipe := {| columns := cols; geometry_name := geometry_name pipe |} in
  to_file pipe geojson_out "GeoJSON" ;;;
  print (MsgSaved geojson_out) ;;;
  ret pipe.

End Script.

(** ** The aggregator as the design describes it *)

(** Number of batches of size at most [B] that cover [0, N). *)
Definition batch_count (N B : Z) : Z := (N + B - 1) / B.

(** The [k]-th batch is [k*B, min (k*B + B) N). *)
Definition batch_bounds (N B : Z) : list (Z * Z) :=
  map (fun k : nat => (Z.of_nat k * B, Z.min (Z.of_nat k * B + B) N))
      (seq 0 (Z.to_nat (batch_count N B))).

(** Appending the records of the remaining batches to an accumulator. *)
Definition extend (acc : list stats_record) (out : result (list stats_record))
    : result (list stats_record) :=
  match out with
  | Ok more => Ok (acc ++ more)
  | Raise e => Raise e
  end.

(** The indices of a batch, in order. *)
Definition batch_indices (b : Z * Z) : list Z :=
  map (fun i : nat => fst b + Z.of_nat i) (seq 0 (Z.to_nat (snd b - fst b))).

Section Design.

Context {polygon raster : Type}.
Variable zonal_stats : zs_args polygon raster -> result (list stats_record).

(** The statistics request for one batch of polygons. *)
Definition batch_request (gdf : list polygon) (raster_path : raster) (nodata : Z)
    (b : Z * Z) : zs_args polygon raster :=
  {| zs_vectors := iloc_slice gdf (fst b) (snd b);
     zs_raster := raster_path;
     zs_stats := ["mean"; "min"; "count"; "nodata"];
     zs_nodata := nodata;
     zs_geojson_out := false |}.

(** Issue the requests in order and append the records of each to the
    accumulator; the first failing request ends the run.  The result is
    the list of requests issued and the outcome. *)
Fixpoint accumulate (requests : list (zs_args polygon raster))
    : list (zs_args polygon raster) * result (list stats_record) :=
  match requests with
  | [] => ([], Ok [])
  | a :: rest =>
      match zonal_stats a with
      | Raise e => ([a], Raise e)
      | Ok records =>
          let '(issued, out) := accumulate rest in
          (a :: issued,
           match out with
           | Ok more => Ok (records ++ more)
           | Raise e => Raise e
           end)
      end
  end.

Definition chunked_design (gdf : list polygon) (raster_path : raster)
    (B nodata : Z) : list (zs_args polygon raster) * result (list stats_record) :=
  accumulate (map (batch_request gdf raster_path nodata) (batch_bounds (len gdf) B)).

End Design.

(** ** Shape of the records rasterstats returns for the four statistics *)

(** A finite number. *)
Definition finite_value (v : pyval) : option Q :=
  match v with
  | PyInt z => Some (inject_Z z)
  | PyFloat (Fin q) => Some q
  | _ => None
  end.

Definition finite_or_none (v : pyval) : bool :=
  match v with
  | PyNone => true
  | _ => bool_decide (is_Some (finite_value v))
  end.

(** A record is null, or has the four requested keys, with a mean that is
    [None] or finite and with finite [count] and [nodata]. *)
Definition well_formed (s : stats_record) : bool :=
  match s with
  | None => true
  | Some d =>
      match d !! "mean", d !! "min", d !! "count", d !! "nodata" with
      | Some mean, Some _, Some cnt, Some nd =>
          finite_or_none mean
          && bool_decide (is_Some (finite_value cnt))
          && bool_decide (is_Some (finite_value nd))
      | _, _, _, _ => false
      end
  end.

(** The exposure rule in the words of the design: the record exists, its
    minimum is not the sentinel, and its count exceeds its nodata count. *)
Definition exposed_rule (s : stats_record) : Prop :=
  exists d mn cnt nd c n,
    s = Some d /\
    d !! "min" = Some mn /\ d !! "count" = Some cnt /\ d !! "nodata" = Some nd /\
    (forall q, finite_value mn = Some q -> ~ (q == inject_Z 65535)%Q) /\
    finite_value cnt = Some c /\ finite_value nd = Some n /\ (n < c)%Q.

(** ** Minimum and maximum of the non-null values of a column *)

Definition is_minimum_of (m : float64) (l : list float64) : Prop :=
  In m (dropna l) /\ forall x, In x (dropna l) -> fltb x m = false.

Definition is_maximum_of (m : float64) (l : list float64) : Prop :=
  In m (dropna l) /\ forall x, In x (dropna l) -> fltb m x = false.


(** The claim on the extremes as the design words it, for one column:
    with a non-null mean present, each feature attaining the minimum gets
    0.0 and each feature attaining the maximum gets 1.0. *)
Definition extremes_claim (burn_mean : list float64) : Prop :=
  dropna burn_mean <> [] ->
  forall i m, burn_mean !! i = Some m ->
    (feqb m (series_min burn_mean) = true -> burn_norm burn_mean !! i = Some (Fin 0)) /\
    (feqb m (series_max burn_mean) = true -> burn_norm burn_mean !! i = Some (Fin 1)).

(** The frame claim as the design words it: every original column is
    still there with its values, and the column names are the original
    ones followed by the three derived ones. *)
Definition frame_claim {geometry polygon} (pipe out : frame geometry polygon) : Prop :=
  (forall name c, get_column (columns pipe) name = Ok c ->
                  get_column (columns out) name = Ok c) /\
  map fst (columns out) = map fst (columns pipe) ++ ["burn_mean"; "burn_exposed"; "burn_norm"].

(** No column of the input layer bears the name of the buffer column or
    of a derived column. *)
Definition derived_names_free {geometry polygon} (pipe : frame geometry polygon) : bool :=
  negb (has_column (columns pipe) BUFFER_COLUMN)
  && negb (has_column (columns pipe) "burn_mean")
  && negb (has_column (columns pipe) "burn_exposed")
  && negb (has_column (columns pipe) "burn_norm").

(** ** A small concrete instance *)

(** Three buffers, numbered 0, 1, 2: the first covers valid burn cells
    only, the second nodata cells only, the third has no raster overlap. *)
Definition sample_record (p : Z) : stats_record :=
  if p =? 0 then
    Some (list_to_map [("mean", PyFloat (Fin (3 # 2))); ("min", PyInt 1);
                       ("count", PyInt 100); ("nodata", PyFloat (Fin 0))])
  else if p =? 1 then
    Some (list_to_map [("mean", PyNone); ("min", PyInt 65535);
                       ("count", PyInt 0); ("nodata", PyFloat (Fin 100))])
  else if p =? 2 then None
  else
    Some (list_to_map [("mean", PyFloat (Fin (inject_Z p))); ("min", PyInt p);
                       ("count", PyInt 10); ("nodata", PyFloat (Fin 0))]).

Definition sample_feature_stats (r : unit) (st : list string) (nd : Z) (p : Z)
    : stats_record := sample_record p.

Definition sample_zonal_stats (a : zs_args Z unit) : result (list stats_record) :=
  Ok (map (sample_feature_stats (zs_raster a) (zs_stats a) (zs_nodata a)) (zs_vectors a)).

Definition sample_buffer (g : Z) (d : Z) : Z := g.

Definition sample_pipe : frame Z Z :=
  {| columns := [("geometry", ColGeometry [0; 1; 2]);
                 ("LICENCE", ColObject [PyInt 11; PyInt 12; PyInt 13])];
     geometry_name := "geometry" |}.

(** A layer that already carries an attribute called [burn_mean]. *)
Definition clash_pipe : frame Z Z :=
  {| columns := [("geometry", ColGeometry [0; 1; 2]);
                 ("burn_mean", ColObject [PyInt 7; PyInt 8; PyInt 9])];
     geometry_name := "geometry" |}.

(** The frame the script hands to the exporter for [sample_pipe]. *)
Definition sample_out : frame Z Z :=
  {| columns := [("geometry", ColGeometry [0; 1; 2]);
                 ("LICENCE", ColObject [PyInt 11; PyInt 12; PyInt 13]);
                 ("burn_mean", ColFloat [Fin (3 # 2); NaN; NaN]);
                 ("burn_exposed", ColInt [1; 0; 0]);
                 ("burn_norm", ColFloat [NaN; NaN; NaN])];
     geometry_name := "geometry" |}.

(** The frame the script hands to the exporter for [clash_pipe]. *)
Definition clash_out : frame Z Z :=
  {| columns := [("geometry", ColGeometry [0; 1; 2]);
                 ("burn_mean", ColFloat [Fin (3 # 2); NaN; NaN]);
                 ("burn_exposed", ColInt [1; 0; 0]);
                 ("burn_norm", ColFloat [NaN; NaN; NaN])];
     geometry_name := "geometry" |}.

Definition sample_run (gdf : list Z) (chunk_size : Z) :=
  run_chunked_zonal_stats (geometry := Z) sample_zonal_stats gdf tt chunk_size 65535.

(** The record of a buffer that covers nodata cells only. *)
Definition nodata_only_record : pydict :=
  list_to_map [("mean", PyNone); ("min", PyInt 65535);
               ("count", PyInt 0); ("nodata", PyFloat (Fin 100))].

(** A rasterstats that fails on the batches that start with buffer 2. *)
Definition flaky_zonal_stats (a : zs_args Z unit) : result (list stats_record) :=
  match zs_vectors a with
  | 2 :: _ => Raise (LibraryError 1)
  | _ => sample_zonal_stats a
  end.

(** A record without the [nodata] key. *)
Definition record_without_nodata : pydict :=
  list_to_map [("mean", PyFloat (Fin 2)); ("min", PyInt 3); ("count", PyInt 5)].

(** * Properties *)

(** ** [range] and the batch bounds *)

Lemma range_items_seq (lo step : Z) (n : nat) :
  range_items lo step n = map (fun k : nat => lo + Z.of_nat k * step) (seq 0 n).
Proof.
  revert lo. induction n as [|n IH]; intros lo; [reflexivity|].
  cbn [range_items seq map]. f_equal; [lia|].
  rewrite IH, <- seq_shift, map_map. apply map_ext. intros k. lia.
Qed.

Lemma range_length_batch_count (N B : Z) :
  0 <= N -> 0 < B -> range_length 0 N B = batch_count N B.
Proof.
  intros HN HB. unfold range_length, batch_count.
  destruct (Z.ltb_spec 0 B) as [_|]; [|lia].
  destruct (Z.ltb_spec 0 N) as [HN'|HN']; cbn [andb].
  - replace (N + B - 1) with ((N - 1 - 0) + 1 * B) by lia.
    rewrite Z.div_add by lia. lia.
  - destruct (Z.ltb_spec B 0); [lia|]. cbn [andb].
    symmetry. apply Z.div_small. lia.
Qed.

Lemma py_range_batch_starts (N B : Z) :
  0 <= N -> 0 < B -> py_range 0 N B = Ok (map fst (batch_bounds N B)).
Proof.
  intros HN HB. unfold py_range.
  destruct (Z.eqb_spec B 0); [lia|].
  rewrite range_length_batch_count, range_items_seq by assumption.
  unfold batch_bounds. rewrite map_map. reflexivity.
Qed.

Lemma batch_bounds_snd (N B : Z) (b : Z * Z) :
  In b (batch_bounds N B) -> snd b = Z.min (fst b + B) N.
Proof.
  unfold batch_bounds. rewrite in_map_iff. intros (k & <- & _). reflexivity.
Qed.

Lemma batch_count_nonneg (N B : Z) : 0 <= N -> 0 < B -> 0 <= batch_count N B.
Proof. intros. unfold batch_count. apply Z.div_pos; lia. Qed.

(** [batch_count] is the least [c] with [N <= c * B]. *)
Lemma batch_count_covers (N B : Z) : 0 <= N -> 0 < B -> N <= batch_count N B * B.
Proof.
  intros HN HB. unfold batch_count.
  pose proof (Z.div_mod (N + B - 1) B ltac:(lia)) as E.
  pose proof (Z.mod_pos_bound (N + B - 1) B HB). nia.
Qed.

Lemma batch_count_least (N B k : Z) :
  0 <= N -> 0 < B -> 0 <= k < batch_count N B -> k * B < N.
Proof.
  intros HN HB Hk. unfold batch_count in Hk.
  pose proof (Z.div_mod (N + B - 1) B ltac:(lia)) as E.
  pose proof (Z.mod_pos_bound (N + B - 1) B HB). nia.
Qed.

(** Every batch is a non-empty range inside [0, N) of at most [B] indices. *)
Lemma batch_bounds_range (N B : Z) (b : Z * Z) :
  0 <= N -> 0 < B -> In b (batch_bounds N B) ->
  0 <= fst b /\ fst b < snd b /\ snd b <= N /\ snd b - fst b <= B.
Proof.
  intros HN HB. unfold batch_bounds. rewrite in_map_iff.
  intros (k & <- & Hk). apply in_seq in Hk. cbn [fst snd].
  pose proof (batch_count_nonneg N B HN HB).
  assert (Z.of_nat k * B < N) by (apply batch_count_least; lia).
  lia.
Qed.

(** ** Slices of the batches *)

Lemma iloc_slice_in_range {A} (l : list A) (s e : Z) :
  0 <= s <= e -> e <= len l ->
  iloc_slice l s e = take (Z.to_nat (e - s)) (drop (Z.to_nat s) l).
Proof.
  intros Hse He. unfold iloc_slice, slice_bound.
  destruct (Z.ltb_spec s 0); [lia|]. destruct (Z.ltb_spec e 0); [lia|].
  rewrite !Z.min_l by lia. reflexivity.
Qed.

(** The slices of the batches [j, j+1, ...] put end to end are the input
    from row [j*B] on. *)
Lemma batch_slices_from {A} (l : list A) (B : Z) (n j : nat) :
  0 < B ->
  (j + n)%nat = Z.to_nat (batch_count (len l) B) ->
  concat (map (fun k : nat =>
                 iloc_slice l (Z.of_nat k * B) (Z.min (Z.of_nat k * B + B) (len l)))
              (seq j n))
  = drop (Z.to_nat (Z.of_nat j * B)) l.
Proof.
  intros HB. revert j. induction n as [|n IH]; intros j Hj.
  - cbn. symmetry. apply drop_ge.
    assert (0 <= len l) by (unfold len; lia).
    pose proof (batch_count_covers (len l) B ltac:(lia) HB).
    pose proof (batch_count_nonneg (len l) B ltac:(lia) HB).
    assert (Z.of_nat j = batch_count (len l) B) as -> by lia.
    unfold len in *. lia.
  - cbn [seq map concat]. rewrite IH by lia.
    assert (0 <= len l) by (unfold len; lia).
    assert (Z.of_nat j * B < len l) as Hlt
      by (apply batch_count_least; [lia | lia | lia]).
    rewrite iloc_slice_in_range by lia.
    rewrite <- (take_drop (Z.to_nat (Z.min (Z.of_nat j * B + B) (len l) - Z.of_nat j * B))
                          (drop (Z.to_nat (Z.of_nat j * B)) l)) at 2.
    f_equal. rewrite drop_drop.
    destruct (Z.le_gt_cases (Z.of_nat j * B + B) (len l)) as [Hle|Hgt].
    + rewrite Z.min_l by lia. f_equal. lia.
    + rewrite Z.min_r by lia. rewrite !drop_ge; [reflexivity | |]; unfold len in *; lia.
Qed.

Lemma batch_slices_cover {A} (l : list A) (B : Z) :
  0 < B ->
  concat (map (fun b => iloc_slice l (fst b) (snd b)) (batch_bounds (len l) B)) = l.
Proof.
  intros HB. unfold batch_bounds. rewrite map_map. cbn [fst snd].
  rewrite (batch_slices_from l B _ 0%nat HB) by lia. reflexivity.
Qed.

Lemma map_of_nat_seq (a k : nat) :
  map Z.of_nat (seq a k) = map (fun i : nat => Z.of_nat a + Z.of_nat i) (seq 0 k).
Proof.
  revert a. induction k as [|k IH]; intros a; [reflexivity|].
  cbn [seq map]. f_equal; [lia|].
  rewrite IH, <- (seq_shift k 0), map_map. apply map_ext. intros i. lia.
Qed.

(** The indices of the batches, put end to end, enumerate [0, N). *)
Lemma batch_indices_cover (N B : Z) :
  0 <= N -> 0 < B ->
  concat (map batch_indices (batch_bounds N B))
  = map Z.of_nat (seq 0 (Z.to_nat N)).
Proof.
  intros HN HB.
  set (l := map Z.of_nat (seq 0 (Z.to_nat N))).
  assert (len l = N) as Hlen
    by (unfold l, len; rewrite length_map, length_seq; lia).
  rewrite <- (batch_slices_cover l B HB). rewrite Hlen.
  f_equal. apply map_ext_in. intros b Hb.
  destruct (batch_bounds_range N B b HN HB Hb) as (H0 & H1 & H2 & _).
  rewrite iloc_slice_in_range by lia.
  unfold batch_indices, l.
  rewrite skipn_map, firstn_map, drop_seq, take_seq.
  rewrite Nat.min_l by lia.
  rewrite map_of_nat_seq. apply map_ext. intros i. lia.
Qed.

(** ** The chunked aggregator *)

Section Aggregator.

Context {geometry polygon raster : Type}.
Variable zonal_stats : zs_args polygon raster -> result (list stats_record).

Local Abbreviation run :=
  (run_chunked_zonal_stats (geometry := geometry) zonal_stats).

(** A loop whose body prints, asks for the statistics of one request and
    appends the answer issues the requests of [accumulate] and ends with
    its outcome. *)
Lemma for_each_accumulate
    (request : Z -> zs_args polygon raster) (line : Z -> message)
    (body : Z -> list stats_record -> M geometry polygon raster (list stats_record))
    (xs : list Z) :
  (forall start acc,
      body start acc =
      (print (line start) ;;;
       let* stats := call_zonal_stats zonal_stats (request start) in
       ret (acc ++ stats))) ->
  forall acc,
    calls_of (trace (for_each xs body acc))
      = fst (accumulate zonal_stats (map request xs)) /\
    outcome (for_each xs body acc)
      = extend acc (snd (accumulate zonal_stats (map request xs))).
Proof.
  intros Hbody. induction xs as [|x xs IH]; intros acc.
  - cbn. rewrite app_nil_r. split; reflexivity.
  - cbn [for_each map accumulate]. rewrite Hbody.
    unfold call_zonal_stats, print, emit, lift, ret, bind at 1 2 3 4.
    destruct (zonal_stats (request x)) as [records|e]; cbn.
    + destruct (IH (acc ++ records)) as [IHc IHo].
      destruct (for_each xs body (acc ++ records)) as [t r].
      destruct (accumulate zonal_stats (map request xs)) as [issued out].
      cbn in *. split; [f_equal; exact IHc|].
      rewrite IHo. destruct out; cbn; [rewrite app_assoc|]; reflexivity.
    + split; reflexivity.
Qed.

(** For a positive chunk size the code issues the requests of the
    design, in the same order, and ends with the same outcome. *)
Lemma run_refines_design (gdf : list polygon) (r : raster) (B nodata : Z) :
  0 < B ->
  calls_of (trace (run gdf r B nodata)) = fst (chunked_design zonal_stats gdf r B nodata) /\
  outcome (run gdf r B nodata) = snd (chunked_design zonal_stats gdf r B nodata).
Proof.
  intros HB. unfold run_chunked_zonal_stats, chunked_design.
  assert (0 <= len gdf) as HN by (unfold len; lia).
  rewrite (py_range_batch_starts _ _ HN HB).
  set (body := fun (start : Z) (all_stats : list stats_record) => _).
  set (request := fun start : Z =>
         batch_request gdf r nodata (start, Z.min (start + B) (len gdf))).
  assert (map (batch_request gdf r nodata) (batch_bounds (len gdf) B)
          = map request (map fst (batch_bounds (len gdf) B))) as ->.
  { rewrite map_map. apply map_ext_in. intros b Hb. unfold request.
    rewrite <- (batch_bounds_snd _ _ _ Hb). destruct b; reflexivity. }
  destruct (for_each_accumulate request
              (fun start => MsgProcessing start (Z.min (start + B) (len gdf) - 1))
              body (map fst (batch_bounds (len gdf) B))
              ltac:(intros; reflexivity) []) as [Hc Ho].
  clearbody body request.
  unfold print, emit, lift, bind, trace, outcome, calls_of in *. cbn in *.
  destruct (for_each _ body []) as [t out]. cbn in *.
  split; [exact Hc|]. rewrite Ho.
  destruct (snd _); reflexivity.
Qed.

(** C6.  For a batch size [B > 0] the aggregator splits [0, N) into the
    consecutive batches [start, min (start + B) N) of at most [B] rows,
    asks rasterstats for mean, min, count and nodata on each batch in
    order, and returns the accumulated records of the batches in order
    (the first failing request ends the run); the call of the script
    uses the default batch size 10000. *)
Theorem chunked_aggregator_algorithm
    (gdf : list polygon) (r : raster) (B nodata : Z) :
  0 < B ->
  (calls_of (trace (run gdf r B nodata)), outcome (run gdf r B nodata))
    = accumulate zonal_stats
        (map (batch_request gdf r nodata) (batch_bounds (len gdf) B)) /\
  concat (map batch_indices (batch_bounds (len gdf) B))
    = map Z.of_nat (seq 0 (length gdf)) /\
  (forall b, In b (batch_bounds (len gdf) B) ->
     snd b = Z.min (fst b + B) (len gdf) /\ 0 < snd b - fst b <= B) /\
  run_chunked_zonal_stats_defaults (geometry := geometry) zonal_stats gdf r
    = run gdf r 10000 65535.
Proof.
  intros HB. assert (0 <= len gdf) as HN by (unfold len; lia).
  destruct (run_refines_design gdf r B nodata HB) as [Hc Ho].
  repeat split.
  - rewrite Hc, Ho. unfold chunked_design.
    destruct (accumulate _ _); reflexivity.
  - rewrite (batch_indices_cover _ _ HN HB). unfold len.
    rewrite Nat2Z.id. reflexivity.
  - apply batch_bounds_snd; assumption.
  - pose proof (batch_bounds_range _ _ _ HN HB H). lia.
  - pose proof (batch_bounds_range _ _ _ HN HB H). lia.
Qed.

(** C10.  On an empty input, with any non-zero chunk size, the
    aggregator returns the empty list and never calls rasterstats. *)
Theorem empty_input_no_call (r : raster) (B nodata : Z) :
  B <> 0 ->
  outcome (run [] r B nodata) = Ok [] /\
  calls_of (trace (run [] r B nodata)) = [].
Proof.
  intros HB. unfold run_chunked_zonal_stats, py_range, range_length.
  destruct (Z.eqb_spec B 0); [contradiction|].
  change (len (@nil polygon)) with 0.
  rewrite !Z.ltb_irrefl, !andb_false_r. cbn. split; reflexivity.
Qed.

(** *** With rasterstats computing each feature on its own *)

Variable feature_stats : raster -> list string -> Z -> polygon -> stats_record.

Hypothesis zonal_stats_per_feature :
  forall a,
    zonal_stats a
    = Ok (map (feature_stats (zs_raster a) (zs_stats a) (zs_nodata a)) (zs_vectors a)).

Lemma accumulate_per_feature (requests : list (zs_args polygon raster)) :
  accumulate zonal_stats requests
  = (requests,
     Ok (concat (map (fun a => map (feature_stats (zs_raster a) (zs_stats a) (zs_nodata a))
                                   (zs_vectors a)) requests))).
Proof.
  induction requests as [|a rest IH]; [reflexivity|].
  cbn [accumulate]. rewrite zonal_stats_per_feature, IH. reflexivity.
Qed.

(** Whatever the positive chunk size, the outcome is the per-feature
    record of every input polygon, in input order. *)
Lemma run_per_feature (gdf : list polygon) (r : raster) (B nodata : Z) :
  0 < B ->
  outcome (run gdf r B nodata)
  = Ok (map (feature_stats r REQUESTED_STATS nodata) gdf).
Proof.
  intros HB. destruct (run_refines_design gdf r B nodata HB) as [_ ->].
  unfold chunked_design. rewrite accumulate_per_feature. cbn [snd].
  f_equal. rewrite map_map. cbn [batch_request zs_raster zs_stats zs_nodata zs_vectors].
  rewrite <- (batch_slices_cover gdf B HB) at 2.
  rewrite concat_map, map_map. reflexivity.
Qed.

(** C1.  The aggregator returns exactly one record per input polygon,
    the [i]-th record being the zonal statistics of the [i]-th polygon:
    nothing is dropped or reordered at batch boundaries. *)
Theorem one_record_per_buffer_in_order
    (gdf : list polygon) (r : raster) (B nodata : Z) :
  0 < B ->
  exists records,
    outcome (run gdf r B nodata) = Ok records /\
    length records = length gdf /\
    (forall i p, gdf !! i = Some p ->
       records !! i = Some (feature_stats r REQUESTED_STATS nodata p)) /\
    (forall i, length gdf <= i -> records !! i = None)%nat.
Proof.
  intros HB. eexists. split; [apply run_per_feature; exact HB|].
  split; [apply length_map|]. split.
  - intros i p Hi. rewrite list_lookup_fmap_Some. exists p. auto.
  - intros i Hi. apply lookup_ge_None_2. rewrite length_map. exact Hi.
Qed.

(** C3, amended.  For a non-empty input the run with one batch of [N]
    rows and the run with [N] batches of one row return the same list,
    and so does the run with any other positive chunk size. *)
Theorem chunk_size_invariance (gdf : list polygon) (r : raster) (nodata : Z) :
  gdf <> [] ->
  exists records,
    outcome (run gdf r (len gdf) nodata) = Ok records /\
    outcome (run gdf r 1 nodata) = Ok records /\
    forall B, 0 < B -> outcome (run gdf r B nodata) = Ok records.
Proof.
  intros Hne. eexists. split; [|split].
  - apply run_per_feature. destruct gdf; [contradiction|]. unfold len. cbn. lia.
  - apply run_per_feature. lia.
  - intros B HB. apply run_per_feature. exact HB.
Qed.

End Aggregator.

(** ** The exposure flag *)

Lemma Qltb_lt (a b : Q) : Qltb a b = true <-> (a < b)%Q.
Proof.
  unfold Qltb. rewrite negb_true_iff, <- not_true_iff_false, Qle_bool_iff.
  split; [apply Qnot_le_lt | apply Qlt_not_le].
Qed.

Lemma as_number_finite (v : pyval) (q : Q) :
  finite_value v = Some q -> as_number v = Some (Fin q).
Proof.
  destruct v as [|z|[| | |q']]; cbn; intros [= <-]; reflexivity.
Qed.

Lemma py_ne_sentinel (mn : pyval) :
  py_ne mn (PyInt NODATA_SENTINEL) = true <->
  (forall q, finite_value mn = Some q -> ~ (q == inject_Z 65535)%Q).
Proof.
  unfold py_ne, NODATA_SENTINEL.
  destruct mn as [|z|[| | |q']]; cbn; try (split; [intros _ q [=] | reflexivity]).
  - rewrite negb_true_iff, <- not_true_iff_false, Qeq_bool_iff.
    split; [intros H q [= <-]; exact H | intros H; apply H; reflexivity].
  - rewrite negb_true_iff, <- not_true_iff_false, Qeq_bool_iff.
    split; [intros H q [= <-]; exact H | intros H; apply H; reflexivity].
Qed.

Lemma py_gt_finite (cnt nd : pyval) (c n : Q) :
  finite_value cnt = Some c -> finite_value nd = Some n ->
  py_gt cnt nd = Ok (Qltb n c).
Proof.
  intros Hc Hn. unfold py_gt.
  rewrite (as_number_finite _ _ Hc), (as_number_finite _ _ Hn). reflexivity.
Qed.

Lemma truthy_nonempty (d : pydict) (k : string) (v : pyval) :
  d !! k = Some v -> truthy (Some d) = true.
Proof.
  intros Hk. unfold truthy. rewrite bool_decide_eq_false_2; [reflexivity|].
  intros ->. rewrite lookup_empty in Hk. discriminate.
Qed.

(** The flag of a record that holds [min] and a finite [count], with
    [n] the finite value read for the nodata count. *)
Lemma burn_exposed_of_eval (d : pydict) (mn cnt : pyval) (c n : Q) :
  d !! "min" = Some mn -> d !! "count" = Some cnt ->
  finite_value cnt = Some c ->
  finite_value (dict_get d "nodata" (PyInt 0)) = Some n ->
  burn_exposed_of (Some d)
  = Ok (if py_ne mn (PyInt NODATA_SENTINEL) && Qltb n c then 1 else 0).
Proof.
  intros Hmn Hcnt Hc Hn. unfold burn_exposed_of.
  rewrite (truthy_nonempty _ _ _ Hmn). unfold getitem. rewrite Hmn, Hcnt.
  destruct (py_ne mn (PyInt NODATA_SENTINEL)); [|reflexivity].
  rewrite (py_gt_finite _ _ _ _ Hc Hn). cbn [andb].
  destruct (Qltb n c); reflexivity.
Qed.

(** C2.  For a record of the shape rasterstats returns, the flag is 1
    exactly when the record exists, its minimum is not the sentinel 65535
    and its count exceeds its nodata count; it is 0 in every other case,
    in particular for a null record and for a minimum equal to the
    sentinel. *)
Theorem burn_exposed_iff_rule (s : stats_record) :
  well_formed s = true ->
  (burn_exposed_of s = Ok 1 <-> exposed_rule s) /\
  (~ exposed_rule s -> burn_exposed_of s = Ok 0) /\
  (s = None -> burn_exposed_of s = Ok 0) /\
  (forall d mn q, s = Some d -> d !! "min" = Some mn -> finite_value mn = Some q ->
     (q == inject_Z 65535)%Q -> burn_exposed_of s = Ok 0).
Proof.
  intros Hwf.
  assert ((burn_exposed_of s = Ok 1 <-> exposed_rule s) /\
          (burn_exposed_of s = Ok 1 \/ burn_exposed_of s = Ok 0)) as [Hiff Hcases].
  { destruct s as [d|].
    - cbn [well_formed] in Hwf.
      destruct (d !! "mean") as [mean|] eqn:Hmean; [|discriminate].
      destruct (d !! "min") as [mn|] eqn:Hmn; [|discriminate].
      destruct (d !! "count") as [cnt|] eqn:Hcnt; [|discriminate].
      destruct (d !! "nodata") as [nd|] eqn:Hnd; [|discriminate].
      apply andb_true_iff in Hwf as [Hwf Hn]. apply andb_true_iff in Hwf as [_ Hc].
      apply bool_decide_eq_true in Hc as [c Hc], Hn as [n Hn].
      assert (finite_value (dict_get d "nodata" (PyInt 0)) = Some n) as Hn'
        by (unfold dict_get; rewrite Hnd; exact Hn).
      rewrite (burn_exposed_of_eval d mn cnt c n Hmn Hcnt Hc Hn').
      destruct (py_ne mn (PyInt NODATA_SENTINEL)) eqn:Hne;
        destruct (Qltb n c) eqn:Hlt; cbn [andb]; (split; [|auto]).
      + split; [intros _|reflexivity].
        exists d, mn, cnt, nd, c, n. repeat split; try assumption.
        * apply py_ne_sentinel, Hne.
        * apply Qltb_lt, Hlt.
      + split; [discriminate|].
        intros (d' & mn' & cnt' & nd' & c' & n' & [= <-] & _ & Hcnt' & Hnd' & _ & Hc' & Hn'' & Hlt').
        rewrite Hcnt in Hcnt'. rewrite Hnd in Hnd'.
        injection Hcnt' as <-. injection Hnd' as <-.
        rewrite Hc in Hc'. rewrite Hn in Hn''. injection Hc' as <-. injection Hn'' as <-.
        apply Qltb_lt in Hlt'. congruence.
      + split; [discriminate|].
        intros (d' & mn' & cnt' & nd' & c' & n' & [= <-] & Hmn' & _ & _ & Hne' & _).
        rewrite Hmn in Hmn'. injection Hmn' as <-.
        apply py_ne_sentinel in Hne'. congruence.
      + split; [discriminate|].
        intros (d' & mn' & cnt' & nd' & c' & n' & [= <-] & Hmn' & _ & _ & Hne' & _).
        rewrite Hmn in Hmn'. injection Hmn' as <-.
        apply py_ne_sentinel in Hne'. congruence.
    - cbn. split; [|auto]. split; [discriminate|].
      intros (d & ? & ? & ? & ? & ? & [=] & _). }
  split; [exact Hiff|]. split; [|split].
  - intros Hno. destruct Hcases as [H1|H0]; [|exact H0].
    exfalso. apply Hno, Hiff, H1.
  - intros ->. reflexivity.
  - intros d mn q -> Hmn Hq Heq.
    destruct Hcases as [H1|H0]; [|exact H0]. exfalso.
    apply Hiff in H1 as (d' & mn' & ? & ? & ? & ? & [= <-] & Hmn' & _ & _ & Hne' & _).
    rewrite Hmn in Hmn'. injection Hmn' as <-. exact (Hne' q Hq Heq).
Qed.

(** C9.  A non-null record without the [nodata] key is classified as if
    its nodata count were 0: with a minimum other than 65535 and a count
    above 0 it is exposed. *)
Theorem missing_nodata_counts_as_zero (d : pydict) :
  d !! "nodata" = None -> d <> ∅ ->
  burn_exposed_of (Some d) = burn_exposed_of (Some (<["nodata" := PyInt 0]> d)) /\
  (forall mn cnt c,
     d !! "min" = Some mn ->
     (forall q, finite_value mn = Some q -> ~ (q == inject_Z 65535)%Q) ->
     d !! "count" = Some cnt -> finite_value cnt = Some c -> (0 < c)%Q ->
     burn_exposed_of (Some d) = Ok 1).
Proof.
  intros Hnd Hne. split.
  - unfold burn_exposed_of, truthy, getitem, dict_get.
    rewrite (bool_decide_eq_false_2 (d = ∅)) by exact Hne.
    rewrite (bool_decide_eq_false_2 (<["nodata" := PyInt 0]> d = ∅))
      by apply insert_non_empty.
    rewrite !lookup_insert_ne by discriminate.
    rewrite Hnd, lookup_insert_eq. reflexivity.
  - intros mn cnt c Hmn Hsent Hcnt Hc Hpos.
    rewrite (burn_exposed_of_eval d mn cnt c 0 Hmn Hcnt Hc).
    + apply py_ne_sentinel in Hsent. apply Qltb_lt in Hpos.
      rewrite Hsent, Hpos. reflexivity.
    + unfold dict_get. rewrite Hnd. reflexivity.
Qed.

(** ** The order of float64 on values that are not NaN *)

Lemma Qltb_false (a b : Q) : Qltb a b = false <-> (b <= a)%Q.
Proof.
  unfold Qltb. rewrite negb_false_iff. apply Qle_bool_iff.
Qed.

Lemma fltb_irrefl (x : float64) : fltb x x = false.
Proof.
  destruct x as [| | |q]; cbn; try reflexivity. apply Qltb_false, Qle_refl.
Qed.

(** [x <= y] and [y <= z] give [x <= z], with [<=] read as "not above". *)
Lemma fle_trans (x y z : float64) :
  isnan y = false ->
  fltb y x = false -> fltb z y = false -> fltb z x = false.
Proof.
  destruct x as [| | |a], y as [| | |b], z as [| | |c]; cbn;
    try reflexivity; try discriminate.
  rewrite !Qltb_false. intros _ H1 H2. exact (Qle_trans _ _ _ H1 H2).
Qed.

Lemma fmin_cases (a b : float64) :
  (fmin a b = a /\ fltb b a = false) \/ (fmin a b = b /\ fltb b a = true).
Proof. unfold fmin. destruct (fltb b a); auto. Qed.

Lemma fmax_cases (a b : float64) :
  (fmax a b = a /\ fltb a b = false) \/ (fmax a b = b /\ fltb a b = true).
Proof. unfold fmax. destruct (fltb a b); auto. Qed.

Lemma fltb_asym (a b : float64) : fltb a b = true -> fltb b a = false.
Proof.
  destruct a as [| | |p], b as [| | |q]; cbn; try reflexivity; try discriminate.
  rewrite Qltb_lt, Qltb_false. apply Qlt_le_weak.
Qed.

Lemma fltb_nonnan (a b : float64) :
  fltb a b = true -> isnan a = false /\ isnan b = false.
Proof. destruct a, b; cbn; try discriminate; auto. Qed.

Lemma fold_fmin_least (xs : list float64) (x : float64) :
  isnan x = false -> Forall (fun y => isnan y = false) xs ->
  In (fold_left fmin xs x) (x :: xs) /\
  isnan (fold_left fmin xs x) = false /\
  forall y, In y (x :: xs) -> fltb y (fold_left fmin xs x) = false.
Proof.
  revert x. induction xs as [|a xs IH]; intros x Hx Hxs.
  - cbn. split; [auto|]. split; [exact Hx|].
    intros y [<-|[]]. apply fltb_irrefl.
  - apply Forall_cons in Hxs as [Ha Hxs]. cbn [fold_left].
    assert (isnan (fmin x a) = false) as Hm
      by (destruct (fmin_cases x a) as [[-> _]|[-> _]]; assumption).
    destruct (IH (fmin x a) Hm Hxs) as (Hin & Hnan & Hle).
    split; [|split; [exact Hnan|]].
    + destruct Hin as [Hin|Hin]; [|right; right; exact Hin].
      rewrite <- Hin. destruct (fmin_cases x a) as [[-> _]|[-> _]]; cbn; auto.
    + assert (fltb (fmin x a) (fold_left fmin xs (fmin x a)) = false) as Hmle
        by (apply Hle; left; reflexivity).
      intros y [<-|[<-|Hy]].
      * apply (fle_trans _ (fmin x a)); [exact Hm | exact Hmle |].
        destruct (fmin_cases x a) as [[-> _]|[-> H]];
          [apply fltb_irrefl | apply fltb_asym, H].
      * apply (fle_trans _ (fmin x a)); [exact Hm | exact Hmle |].
        destruct (fmin_cases x a) as [[-> H]|[-> _]];
          [exact H | apply fltb_irrefl].
      * apply Hle. right. exact Hy.
Qed.

Lemma fold_fmax_greatest (xs : list float64) (x : float64) :
  isnan x = false -> Forall (fun y => isnan y = false) xs ->
  In (fold_left fmax xs x) (x :: xs) /\
  isnan (fold_left fmax xs x) = false /\
  forall y, In y (x :: xs) -> fltb (fold_left fmax xs x) y = false.
Proof.
  revert x. induction xs as [|a xs IH]; intros x Hx Hxs.
  - cbn. split; [auto|]. split; [exact Hx|].
    intros y [<-|[]]. apply fltb_irrefl.
  - apply Forall_cons in Hxs as [Ha Hxs]. cbn [fold_left].
    assert (isnan (fmax x a) = false) as Hm
      by (destruct (fmax_cases x a) as [[-> _]|[-> _]]; assumption).
    destruct (IH (fmax x a) Hm Hxs) as (Hin & Hnan & Hle).
    split; [|split; [exact Hnan|]].
    + destruct Hin as [Hin|Hin]; [|right; right; exact Hin].
      rewrite <- Hin. destruct (fmax_cases x a) as [[-> _]|[-> _]]; cbn; auto.
    + assert (fltb (fold_left fmax xs (fmax x a)) (fmax x a) = false) as Hmle
        by (apply Hle; left; reflexivity).
      intros y [<-|[<-|Hy]].
      * apply (fle_trans _ (fmax x a)); [exact Hm | | exact Hmle].
        destruct (fmax_cases x a) as [[-> _]|[-> H]];
          [apply fltb_irrefl | apply fltb_asym, H].
      * apply (fle_trans _ (fmax x a)); [exact Hm | | exact Hmle].
        destruct (fmax_cases x a) as [[-> H]|[-> _]];
          [exact H | apply fltb_irrefl].
      * apply Hle. right. exact Hy.
Qed.

Lemma dropna_nonnan (l : list float64) :
  Forall (fun y => isnan y = false) (dropna l).
Proof.
  apply List.Forall_forall. intros y Hy. unfold dropna in Hy.
  apply filter_In in Hy as [_ Hy]. apply negb_true_iff, Hy.
Qed.

Lemma in_dropna (l : list float64) (x : float64) :
  In x (dropna l) <-> In x l /\ isnan x = false.
Proof. unfold dropna. rewrite filter_In, negb_true_iff. reflexivity. Qed.

Lemma series_min_least (l : list float64) :
  dropna l <> [] ->
  is_minimum_of (series_min l) l /\ isnan (series_min l) = false.
Proof.
  intros Hne. unfold is_minimum_of, series_min.
  pose proof (dropna_nonnan l) as Hall.
  destruct (dropna l) as [|x xs]; [contradiction|].
  apply Forall_cons in Hall as [Hx Hxs].
  destruct (fold_fmin_least xs x Hx Hxs) as (Hin & Hnan & Hle). auto.
Qed.

Lemma series_max_greatest (l : list float64) :
  dropna l <> [] ->
  is_maximum_of (series_max l) l /\ isnan (series_max l) = false.
Proof.
  intros Hne. unfold is_maximum_of, series_max.
  pose proof (dropna_nonnan l) as Hall.
  destruct (dropna l) as [|x xs]; [contradiction|].
  apply Forall_cons in Hall as [Hx Hxs].
  destruct (fold_fmax_greatest xs x Hx Hxs) as (Hin & Hnan & Hle). auto.
Qed.

(** ** The min-max normaliser *)

Lemma burn_norm_exact (means : list float64) :
  burn_norm means = burn_norm_with fsub fdiv means.
Proof. reflexivity. Qed.

Lemma burn_norm_with_lookup (sub div : float64 -> float64 -> float64)
    (means : list float64) (i : nat) (m : float64) :
  means !! i = Some m ->
  burn_norm_with sub div means !! i
  = Some (div (sub m (series_min means))
              (sub (series_max means) (series_min means))).
Proof.
  intros Hi. unfold burn_norm_with.
  rewrite map_map. apply list_lookup_fmap_Some. exists m. auto.
Qed.

Lemma fsub_nan_l (c : float64) : fsub NaN c = NaN.
Proof. reflexivity. Qed.

Lemma fsub_nan_r (x : float64) : fsub x NaN = NaN.
Proof. destruct x; reflexivity. Qed.

Lemma fdiv_nan_l (d : float64) : fdiv NaN d = NaN.
Proof. reflexivity. Qed.

Lemma fdiv_nan_r (x : float64) : fdiv x NaN = NaN.
Proof. destruct x; reflexivity. Qed.

Lemma Qeq_bool_false (a b : Q) : Qeq_bool a b = false <-> ~ (a == b)%Q.
Proof. rewrite <- not_true_iff_false, Qeq_bool_iff. reflexivity. Qed.

(** C4.  Whatever the rounding of the subtraction and of the division,
    every feature gets the float64 quotient
    (burn_mean - global_min) / (global_max - global_min), where global_min
    and global_max are the least and the greatest non-null burn_mean of
    the feature set; a null burn_mean gives a null burn_norm. *)
Theorem burn_norm_formula (sub div : float64 -> float64 -> float64)
    (means : list float64) (i : nat) (m : float64) :
  propagates_nan sub -> propagates_nan div ->
  means !! i = Some m ->
  burn_norm_with sub div means !! i
    = Some (div (sub m (series_min means))
                (sub (series_max means) (series_min means))) /\
  (isnan m = false ->
     is_minimum_of (series_min means) means /\
     is_maximum_of (series_max means) means) /\
  (isnan m = true -> burn_norm_with sub div means !! i = Some NaN).
Proof.
  intros [Hsub _] [Hdiv _] Hi.
  pose proof (burn_norm_with_lookup sub div means i m Hi) as Hnorm.
  split; [exact Hnorm|]. split.
  - intros Hm.
    assert (dropna means <> []) as Hne.
    { intros Hnil. assert (In m (dropna means)) as Hin.
      { apply in_dropna. split; [|exact Hm].
        apply list_elem_of_In, list_elem_of_lookup. eauto. }
      rewrite Hnil in Hin. destruct Hin. }
    split; [apply series_min_least | apply series_max_greatest]; exact Hne.
  - intros Hm. destruct m; try discriminate. rewrite Hnorm, Hsub, Hdiv. reflexivity.
Qed.

Lemma series_min_all_null (means : list float64) :
  dropna means = [] -> series_min means = NaN.
Proof. intros H. unfold series_min. rewrite H. reflexivity. Qed.

Lemma burn_norm_all_null (means : list float64) :
  dropna means = [] -> burn_norm means = map (fun _ => NaN) means.
Proof.
  intros H. unfold burn_norm, series_div_scalar, series_sub_scalar.
  rewrite (series_min_all_null means H), map_map.
  apply map_ext. intros x. rewrite fsub_nan_r. reflexivity.
Qed.

Lemma feqb_fin (m : float64) (a : Q) :
  feqb m (Fin a) = true -> exists q, m = Fin q /\ (q == a)%Q.
Proof.
  destruct m as [| | |q]; cbn; try discriminate.
  intros H. exists q. split; [reflexivity | apply Qeq_bool_iff, H].
Qed.

(** Exact arithmetic on the rationals has the properties of
    [float_arith]. *)
Lemma exact_float_arith : float_arith fsub fdiv.
Proof.
  split.
  - split; [apply fsub_nan_l | apply fsub_nan_r].
  - split; [apply fdiv_nan_l | apply fdiv_nan_r].
  - intros q q' a Hq. cbn [fsub]. f_equal. apply Qred_complete.
    rewrite Hq. reflexivity.
  - intros q q' Hq. cbn [fsub]. f_equal. apply (Qred_complete _ 0). lra.
  - intros a b Hab. right. eexists. split; [reflexivity|].
    rewrite Qred_correct. lra.
  - intros d Hd. cbn [fdiv].
    assert (Qeq_bool d 0 = false) as -> by (apply Qeq_bool_false; lra).
    first [reflexivity | f_equal; apply (Qred_complete _ 0); field; lra].
  - reflexivity.
  - intros d Hd. cbn [fdiv].
    assert (Qeq_bool d 0 = false) as -> by (apply Qeq_bool_false; lra).
    first [reflexivity | f_equal; apply (Qred_complete _ 1); field; lra].
Qed.

Lemma burn_norm_with_all_null (sub div : float64 -> float64 -> float64)
    (means : list float64) :
  propagates_nan sub -> propagates_nan div ->
  dropna means = [] -> burn_norm_with sub div means = map (fun _ => NaN) means.
Proof.
  intros [_ Hsub] [Hdiv _] H. unfold burn_norm_with.
  rewrite (series_min_all_null means H), map_map.
  apply map_ext. intros x. rewrite Hsub, Hdiv. reflexivity.
Qed.



(** When the least and the greatest non-null mean are the same finite
    value, every quotient is zero over zero. *)
Lemma burn_norm_degenerate (means : list float64) (a b : Q) :
  series_min means = Fin a -> series_max means = Fin b -> (a == b)%Q ->
  burn_norm means = map (fun _ => NaN) means.
Proof.
  intros Ha Hb Hab. unfold burn_norm, series_div_scalar, series_sub_scalar.
  rewrite map_map. apply map_ext_in. intros m Hm.
  destruct (isnan m) eqn:Hnan.
  - destruct m; try discriminate. reflexivity.
  - assert (In m (dropna means)) as Hin by (apply in_dropna; auto).
    assert (dropna means <> []) as Hne by (intros E; rewrite E in Hin; destruct Hin).
    destruct (series_min_least means Hne) as [[_ Hlo] _].
    destruct (series_max_greatest means Hne) as [[_ Hhi] _].
    specialize (Hlo m Hin). specialize (Hhi m Hin).
    rewrite Ha in *. rewrite Hb in *.
    destruct m as [| | |q]; cbn in Hlo, Hhi; try discriminate.
    apply Qltb_false in Hlo, Hhi. cbn [fsub fdiv].
    assert (Qeq_bool (Qred (b - a)) 0 = true) as ->
      by (apply Qeq_bool_iff; rewrite Qred_correct; lra).
    assert (Qeq_bool (Qred (q - a)) 0 = true) as ->
      by (apply Qeq_bool_iff; rewrite Qred_correct; lra).
    reflexivity.
Qed.

(** C5, amended.  When the least and the greatest non-null burn_mean are
    finite and distinct, every feature attaining the least gets 0.0, and
    every feature attaining the greatest gets 1.0 provided the difference
    global_max - global_min is finite (has not overflowed); when every
    burn_mean is null, every burn_norm is null.  The normaliser is a
    total function: no case raises. *)
Theorem burn_norm_extremes (sub div : float64 -> float64 -> float64)
    (means : list float64) :
  float_arith sub div ->
  (forall a b,
     series_min means = Fin a -> series_max means = Fin b -> (a < b)%Q ->
     forall i m, means !! i = Some m ->
       (feqb m (series_min means) = true ->
        burn_norm_with sub div means !! i = Some (Fin 0)) /\
       (feqb m (series_max means) = true ->
        is_finite (sub (series_max means) (series_min means)) = true ->
        burn_norm_with sub div means !! i = Some (Fin 1))) /\
  (dropna means = [] -> burn_norm_with sub div means = map (fun _ => NaN) means).
Proof.
  intros FA. split.
  - intros a b Ha Hb Hab i m Hi.
    rewrite (burn_norm_with_lookup sub div means i m Hi), Ha, Hb.
    split.
    + intros Heq. apply feqb_fin in Heq as (q & -> & Hq).
      rewrite (fa_sub_self sub div FA q a Hq).
      destruct (fa_sub_pos sub div FA a b Hab) as [->|(d & -> & Hd)].
      * rewrite (fa_div_zero_inf sub div FA). reflexivity.
      * rewrite (fa_div_zero sub div FA d Hd). reflexivity.
    + intros Heq Hfin. apply feqb_fin in Heq as (q & -> & Hq).
      rewrite (fa_sub_ext sub div FA q b a Hq).
      destruct (fa_sub_pos sub div FA a b Hab) as [E|(d & E & Hd)];
        rewrite E in Hfin |- *; [discriminate|].
      rewrite (fa_div_self sub div FA d Hd). reflexivity.
  - apply burn_norm_with_all_null; apply FA.
Qed.

(** ** Comprehensions and columns *)


Lemma comprehension_total {A B} (f : A -> result B) (g : A -> B) (xs : list A) :
  Forall (fun x => f x = Ok (g x)) xs -> comprehension f xs = Ok (map g xs).
Proof.
  induction 1 as [|x xs Hx _ IH]; cbn; [reflexivity|]. rewrite Hx, IH. reflexivity.
Qed.


Lemma burn_exposed_of_null : burn_exposed_of None = Ok 0.
Proof. reflexivity. Qed.

Section Columns.

Context {geometry polygon : Type}.
Implicit Types (cols : list (string * column geometry polygon))
               (c : column geometry polygon) (n : string).


Lemma get_set_ne cols n n' c :
  n <> n' -> get_column (set_column cols n c) n' = get_column cols n'.
Proof.
  intros Hne. induction cols as [|[n0 c0] cols IH]; cbn.
  - apply String.eqb_neq in Hne. rewrite Hne. reflexivity.
  - destruct (String.eqb n0 n) eqn:E; cbn.
    + apply String.eqb_eq in E as ->. apply String.eqb_neq in Hne.
      rewrite Hne. reflexivity.
    + destruct (String.eqb n0 n'); [reflexivity | exact IH].
Qed.

Lemma get_filter_ne cols n n' :
  n <> n' ->
  get_column (List.filter (fun nc => negb (String.eqb (fst nc) n)) cols) n'
  = get_column cols n'.
Proof.
  intros Hne. induction cols as [|[n0 c0] cols IH]; cbn; [reflexivity|].
  destruct (String.eqb n0 n) eqn:E; cbn.
  - apply String.eqb_eq in E as ->. apply String.eqb_neq in Hne.
    rewrite Hne. exact IH.
  - destruct (String.eqb n0 n'); [reflexivity | exact IH].
Qed.

Lemma has_column_app cols cols' n :
  has_column (cols ++ cols') n = has_column cols n || has_column cols' n.
Proof. unfold has_column. apply existsb_app. Qed.

Lemma has_column_set cols n c : has_column (set_column cols n c) n = true.
Proof.
  induction cols as [|[n0 c0] cols IH]; cbn.
  - rewrite String.eqb_refl. reflexivity.
  - destruct (String.eqb n0 n) eqn:E; cbn; rewrite E; [reflexivity | exact IH].
Qed.

Lemma has_column_set_other cols n n' c :
  has_column cols n' = true -> has_column (set_column cols n c) n' = true.
Proof.
  induction cols as [|[n0 c0] cols IH]; cbn; [discriminate|].
  destruct (String.eqb n0 n) eqn:E; cbn; [auto|].
  destruct (String.eqb n0 n'); cbn; auto.
Qed.

(** Assigning a column whose name is new appends it. *)
Lemma set_column_fresh cols n c :
  has_column cols n = false -> set_column cols n c = cols ++ [(n, c)].
Proof.
  induction cols as [|[n0 c0] cols IH]; cbn; [reflexivity|].
  intros H. apply orb_false_iff in H as [E H]. rewrite E, (IH H). reflexivity.
Qed.

Lemma filter_absent cols n :
  has_column cols n = false ->
  List.filter (fun nc => negb (String.eqb (fst nc) n)) cols = cols.
Proof.
  induction cols as [|[n0 c0] cols IH]; cbn; [reflexivity|].
  intros H. apply orb_false_iff in H as [E H]. rewrite E, (IH H). reflexivity.
Qed.

Lemma get_column_absent cols n :
  has_column cols n = false -> get_column cols n = Raise (KeyError n).
Proof.
  induction cols as [|[n0 c0] cols IH]; cbn; [reflexivity|].
  intros H. apply orb_false_iff in H as [E H]. rewrite E. exact (IH H).
Qed.

Lemma get_column_app_l cols cols' n c :
  get_column cols n = Ok c -> get_column (cols ++ cols') n = Ok c.
Proof.
  induction cols as [|[n0 c0] cols IH]; cbn; [discriminate|].
  destruct (String.eqb n0 n); auto.
Qed.

End Columns.

(** ** Running the script *)

Ltac find_in := first [reflexivity | left; find_in | right; find_in].

Lemma bind_Ok_inv {geometry polygon raster A B}
    (m : M geometry polygon raster A) (k : A -> M geometry polygon raster B)
    (t : list (event geometry polygon raster)) (b : B) :
  bind m k = (t, Ok b) ->
  exists t1 a t2, m = (t1, Ok a) /\ k a = (t2, Ok b) /\ t = t1 ++ t2.
Proof.
  unfold bind. destruct m as [t1 [a|e]]; [|discriminate].
  destruct (k a) as [t2 r] eqn:Hk. intros [= <- ->].
  exists t1, a, t2. auto.
Qed.

Lemma check_length_Ok {A} (rows : Z) (values values' : list A) :
  check_length rows values = Ok values' -> values' = values /\ len values = rows.
Proof.
  unfold check_length. destruct (Z.eqb_spec (len values) rows); [|discriminate].
  intros [= <-]. auto.
Qed.

Section Exporter.

Context {geometry polygon raster : Type}.
Variable zonal_stats : zs_args polygon raster -> result (list stats_record).
Variable buffer : geometry -> Z -> polygon.

Local Abbreviation run_script := (script zonal_stats buffer).

(** What a run of the script that reaches its end went through. *)
Lemma script_Ok_inv (pipe out : frame geometry polygon) (fire_file : raster) :
  outcome (run_script pipe fire_file) = Ok out ->
  exists geoms records means flags,
    frame_geometry pipe = Ok geoms /\
    outcome (run_chunked_zonal_stats_defaults (geometry := geometry) zonal_stats
               (map (fun g => buffer g BUFFER_DISTANCE) geoms) fire_file)
      = Ok records /\
    comprehension burn_mean_of records = Ok means /\
    comprehension burn_exposed_of records = Ok flags /\
    length means = length geoms /\ length flags = length geoms /\
    drop_column
      (enriched_columns pipe (map (fun g => buffer g BUFFER_DISTANCE) geoms)
         (map to_float64 means) flags) BUFFER_COLUMN = Ok (columns out) /\
    geometry_name out = geometry_name pipe /\
    (exists gs, frame_geometry out = Ok gs) /\
    In (EvToFile geojson_out "GeoJSON" out) (trace (run_script pipe fire_file)).
Proof.
  unfold outcome. destruct (run_script pipe fire_file) as [t r] eqn:Hrun.
  cbn [snd]. intros ->. unfold script in Hrun.
  repeat match type of Hrun with
         | bind _ _ = (_, Ok _) =>
             let t1 := fresh "t" in let a := fresh "a" in
             let t2 := fresh "t" in let H1 := fresh "Hstep" in
             apply bind_Ok_inv in Hrun as (t1 & a & t2 & H1 & Hrun & ->)
         end.
  unfold lift, print, emit, ret in *.
  injection Hstep0 as <- Hgeom. injection Hstep3 as <- Hmeans.
  injection Hstep4 as <- Hlen_means. injection Hstep5 as <- Hflags.
  injection Hstep6 as <- Hlen_flags. injection Hstep7 as <- Hdrop.
  injection Hrun as <- <-.
  apply check_length_Ok in Hlen_means as [-> Hlen_means].
  apply check_length_Ok in Hlen_flags as [-> Hlen_flags].
  unfold to_file in Hstep8.
  apply bind_Ok_inv in Hstep8 as (t' & gs & t'' & Hgs & Hemit & ->).
  unfold lift, emit in Hgs, Hemit. injection Hgs as <- Hgs. injection Hemit as <- _.
  unfold len in Hlen_means, Hlen_flags. rewrite length_map in Hlen_means, Hlen_flags.
  exists a0, a2, a3, a5. cbn [columns geometry_name setitem] in *.
  repeat split; try assumption; try lia.
  - unfold outcome. rewrite Hstep2. reflexivity.
  - exists gs. exact Hgs.
  - unfold trace. cbn [fst]. rewrite !in_app_iff. cbn [In]. find_in.
Qed.

Lemma drop_column_Ok (cols cols' : list (string * column geometry polygon)) (n : string) :
  drop_column cols n = Ok cols' ->
  cols' = List.filter (fun nc => negb (String.eqb (fst nc) n)) cols.
Proof.
  unfold drop_column. destruct (has_column cols n); [|discriminate].
  intros [= <-]. reflexivity.
Qed.


(** C8, amended.  When no column of the input layer is called
    buffer_500m, burn_mean, burn_exposed or burn_norm, the frame handed
    to the exporter holds the original columns, unchanged and in their
    order, followed by exactly burn_mean, burn_exposed and burn_norm; its
    geometry is the original one and the buffer column is gone when the
    frame is written. *)
Theorem export_frame_effect (pipe out : frame geometry polygon) (fire_file : raster) :
  derived_names_free pipe = true ->
  outcome (run_script pipe fire_file) = Ok out ->
  exists means flags norms,
    columns out
      = columns pipe ++ [("burn_mean", ColFloat means);
                         ("burn_exposed", ColInt flags);
                         ("burn_norm", ColFloat norms)] /\
    geometry_name out = geometry_name pipe /\
    frame_geometry out = frame_geometry pipe /\
    has_column (columns out) BUFFER_COLUMN = false /\
    In (EvToFile geojson_out "GeoJSON" out) (trace (run_script pipe fire_file)).
Proof.
  intros Hfree Hrun. unfold derived_names_free in Hfree.
  repeat (apply andb_true_iff in Hfree as [Hfree ?]).
  repeat match goal with H : negb _ = true |- _ => apply negb_true_iff in H end.
  destruct (script_Ok_inv pipe out fire_file Hrun)
    as (geoms & records & means & flags & Hgeom & _ & _ & _ & _ & _ & Hdrop & Hname & _ & Hev).
  apply drop_column_Ok in Hdrop. unfold enriched_columns in Hdrop.
  rewrite (set_column_fresh (columns pipe)) in Hdrop by assumption.
  rewrite (set_column_fresh (columns pipe ++ [_])) in Hdrop
    by (rewrite has_column_app, orb_false_iff; split; [assumption | reflexivity]).
  rewrite (set_column_fresh ((columns pipe ++ [_]) ++ [_])) in Hdrop
    by (rewrite !has_column_app, !orb_false_iff; repeat split; (assumption || reflexivity)).
  rewrite (set_column_fresh (((columns pipe ++ [_]) ++ [_]) ++ [_])) in Hdrop
    by (rewrite !has_column_app, !orb_false_iff; repeat split; (assumption || reflexivity)).
  rewrite <- !app_assoc, List.filter_app, filter_absent in Hdrop by assumption.
  cbn in Hdrop.
  exists (map to_float64 means), flags, (burn_norm (map to_float64 means)).
  split; [exact Hdrop|]. split; [exact Hname|]. split; [|split; [|exact Hev]].
  - unfold frame_geometry in *. rewrite Hname, Hdrop.
    destruct (get_column (columns pipe) (geometry_name pipe)) as [c|e] eqn:Hc;
      [|discriminate].
    rewrite (get_column_app_l _ _ _ _ Hc). reflexivity.
  - rewrite Hdrop, has_column_app, orb_false_iff. split; [assumption | reflexivity].
Qed.

(** *** The script reaches its end *)

Lemma outcome_bind {A B} (m : M geometry polygon raster A)
    (k : A -> M geometry polygon raster B) (a : A) :
  outcome m = Ok a -> outcome (bind m k) = outcome (k a).
Proof.
  unfold outcome, bind. destruct m as [t r]. cbn [snd]. intros ->.
  destruct (k a). reflexivity.
Qed.

Lemma comprehension_exists {A B} (f : A -> result B) (xs : list A) :
  Forall (fun x => exists y, f x = Ok y) xs ->
  exists ys, comprehension f xs = Ok ys /\ length ys = length xs.
Proof.
  induction 1 as [|x xs [y Hy] _ (ys & IH & Hlen)]; cbn.
  - exists []. auto.
  - rewrite Hy, IH. exists (y :: ys). cbn. auto.
Qed.

Lemma burn_mean_of_total (s : stats_record) :
  well_formed s = true -> exists v, burn_mean_of s = Ok v.
Proof.
  destruct s as [d|]; cbn [well_formed burn_mean_of]; [|eauto].
  destruct (truthy (Some d)); [|eauto].
  unfold getitem. destruct (d !! "mean"); [eauto | discriminate].
Qed.

Lemma burn_exposed_of_total (s : stats_record) :
  well_formed s = true -> exists b, burn_exposed_of s = Ok b.
Proof.
  destruct s as [d|]; [|cbn; eauto]. cbn [well_formed].
  destruct (d !! "mean") as [mean|]; [|discriminate].
  destruct (d !! "min") as [mn|] eqn:Hmn; [|discriminate].
  destruct (d !! "count") as [cnt|] eqn:Hcnt; [|discriminate].
  destruct (d !! "nodata") as [nd|] eqn:Hnd; [|discriminate].
  intros Hwf. apply andb_true_iff in Hwf as [Hwf Hn].
  apply andb_true_iff in Hwf as [_ Hc].
  apply bool_decide_eq_true in Hc as [c Hc], Hn as [n Hn].
  rewrite (burn_exposed_of_eval d mn cnt c n Hmn Hcnt Hc); [eauto|].
  unfold dict_get. rewrite Hnd. exact Hn.
Qed.

Variable feature_stats : raster -> list string -> Z -> polygon -> stats_record.

Hypothesis zonal_stats_per_feature :
  forall a,
    zonal_stats a
    = Ok (map (feature_stats (zs_raster a) (zs_stats a) (zs_nodata a)) (zs_vectors a)).

Hypothesis feature_stats_well_formed :
  forall r st nd p, well_formed (feature_stats r st nd p) = true.

(** With rasterstats answering feature by feature with records of the
    expected shape, a layer that has its geometry column and no column
    named like a derived one is processed up to the export. *)
Lemma script_succeeds (pipe : frame geometry polygon) (fire_file : raster)
    (geoms : list geometry) :
  frame_geometry pipe = Ok geoms ->
  derived_names_free pipe = true ->
  exists out, outcome (run_script pipe fire_file) = Ok out.
Proof.
  intros Hgeom Hfree. unfold script.
  rewrite (outcome_bind _ _ tt) by reflexivity.
  rewrite (outcome_bind _ _ geoms) by (rewrite Hgeom; reflexivity).
  rewrite (outcome_bind _ _ tt) by reflexivity.
  set (buffered := map (fun g => buffer g BUFFER_DISTANCE) geoms).
  set (records := map (feature_stats fire_file REQUESTED_STATS DEFAULT_NODATA) buffered).
  rewrite (outcome_bind _ _ records)
    by (apply (run_per_feature zonal_stats feature_stats zonal_stats_per_feature);
        reflexivity).
  assert (Forall (fun s => well_formed s = true) records) as Hwf.
  { apply List.Forall_forall. intros s Hs. unfold records in Hs.
    apply in_map_iff in Hs as (p & <- & _). apply feature_stats_well_formed. }
  destruct (comprehension_exists burn_mean_of records) as (means & Hmeans & Hlm).
  { eapply Forall_impl; [exact Hwf|]. intros s. apply burn_mean_of_total. }
  destruct (comprehension_exists burn_exposed_of records) as (flags & Hflags & Hlf).
  { eapply Forall_impl; [exact Hwf|]. intros s. apply burn_exposed_of_total. }
  assert (forall A (l : list A), length l = length records ->
            check_length (len buffered) l = Ok l) as Hcheck.
  { intros A l Hl. unfold check_length, len, records in *.
    rewrite length_map in Hl. rewrite Hl, Z.eqb_refl. reflexivity. }
  rewrite (outcome_bind _ _ means) by (rewrite Hmeans; reflexivity).
  rewrite (outcome_bind _ _ means) by (rewrite (Hcheck _ _ Hlm); reflexivity).
  rewrite (outcome_bind _ _ flags) by (rewrite Hflags; reflexivity).
  rewrite (outcome_bind _ _ flags) by (rewrite (Hcheck _ _ Hlf); reflexivity).
  cbn [columns geometry_name setitem].
  set (cols := set_column _ "burn_norm" _).
  assert (has_column cols BUFFER_COLUMN = true) as Hbuf.
  { unfold cols. do 3 apply has_column_set_other. apply has_column_set. }
  unfold drop_column at 1. rewrite Hbuf.
  rewrite (outcome_bind (lift (Ok _)) _ _ eq_refl).
  unfold derived_names_free in Hfree.
  repeat (apply andb_true_iff in Hfree as [Hfree ?]).
  repeat match goal with H : negb _ = true |- _ => apply negb_true_iff in H end.
  assert (forall n, has_column (columns pipe) n = false -> geometry_name pipe <> n) as Hne.
  { intros n Hn E. unfold frame_geometry in Hgeom.
    rewrite E, (get_column_absent _ _ Hn) in Hgeom. discriminate. }
  assert (frame_geometry
            {| columns := List.filter
                            (fun nc => negb (String.eqb (fst nc) BUFFER_COLUMN)) cols;
               geometry_name := geometry_name pipe |} = Ok geoms) as Hout.
  { unfold frame_geometry in *. cbn [columns geometry_name]. unfold cols.
    rewrite get_filter_ne by (apply not_eq_sym, Hne; assumption).
    rewrite !get_set_ne by (apply not_eq_sym, Hne; assumption).
    exact Hgeom. }
  unfold to_file.
  erewrite (outcome_bind (bind _ _) _ tt).
  - rewrite (outcome_bind _ _ tt) by reflexivity. eexists. reflexivity.
  - rewrite (outcome_bind _ _ geoms) by (rewrite Hout; reflexivity). reflexivity.
Qed.

End Exporter.

(** * Further properties of the script *)

(** ** The aggregator at its edges *)

Section AggregatorEdges.

Context {geometry polygon raster : Type}.
Variable zonal_stats : zs_args polygon raster -> result (list stats_record).

Local Abbreviation run :=
  (run_chunked_zonal_stats (geometry := geometry) zonal_stats).

(** A chunk size that is not positive never reaches rasterstats: zero is
    refused by [range] with a ValueError, and a negative step makes the
    range empty, so the run returns the empty list even for a non-empty
    input. *)
Theorem nonpositive_chunk_size (gdf : list polygon) (r : raster) (B nodata : Z) :
  B <= 0 ->
  calls_of (trace (run gdf r B nodata)) = [] /\
  (B = 0 -> outcome (run gdf r B nodata) = Raise ValueError) /\
  (B < 0 -> outcome (run gdf r B nodata) = Ok []).
Proof.
  intros HB. unfold run_chunked_zonal_stats, py_range, range_length.
  assert (0 <= len gdf) as HN by (unfold len; lia).
  destruct (Z.eqb_spec B 0) as [->|Hne].
  - cbn. split; [reflexivity|]. split; [reflexivity | lia].
  - destruct (Z.ltb_spec 0 B); [lia|]. cbn [andb].
    destruct (Z.ltb_spec (len gdf) 0); [lia|]. rewrite andb_false_r.
    cbn. split; [reflexivity|]. split; [contradiction | reflexivity].
Qed.

(** The requests issued are an initial segment of the requests given. *)
Lemma accumulate_issued_prefix (requests : list (zs_args polygon raster)) :
  exists rest, requests = fst (accumulate zonal_stats requests) ++ rest.
Proof.
  induction requests as [|a requests [rest IH]]; [exists []; reflexivity|].
  cbn [accumulate]. destruct (zonal_stats a) as [records|e].
  - destruct (accumulate zonal_stats requests) as [issued out]. cbn [fst] in *.
    exists rest. cbn. f_equal. exact IH.
  - exists requests. reflexivity.
Qed.

Lemma call_window (gdf : list polygon) (r : raster) (B nodata : Z)
    (a : zs_args polygon raster) :
  0 < B ->
  In a (calls_of (trace (run gdf r B nodata))) ->
  exists k : nat,
    Z.of_nat k * B < len gdf /\
    len (zs_vectors a) = Z.min B (len gdf - Z.of_nat k * B) /\
    (forall i : nat, (i < length (zs_vectors a))%nat ->
       zs_vectors a !! i = gdf !! (Z.to_nat (Z.of_nat k * B) + i)%nat) /\
    zs_raster a = r /\ zs_stats a = ["mean"; "min"; "count"; "nodata"] /\
    zs_nodata a = nodata /\ zs_geojson_out a = false.
Proof.
  intros HB Hin. assert (0 <= len gdf) as HN by (unfold len; lia).
  destruct (run_refines_design zonal_stats (geometry := geometry) gdf r B nodata HB)
    as [Hcalls _].
  rewrite Hcalls in Hin. unfold chunked_design in Hin.
  destruct (accumulate_issued_prefix
              (map (batch_request gdf r nodata) (batch_bounds (len gdf) B)))
    as [rest Hpre].
  assert (In a (map (batch_request gdf r nodata) (batch_bounds (len gdf) B))) as Hin'
    by (rewrite Hpre; apply in_or_app; left; exact Hin).
  apply in_map_iff in Hin' as (b & <- & Hb).
  pose proof (batch_bounds_range _ _ _ HN HB Hb) as (H0 & H1 & H2 & H3).
  unfold batch_bounds in Hb. apply in_map_iff in Hb as (k & <- & Hk).
  cbn [fst snd] in *. exists k.
  cbn [batch_request zs_vectors zs_raster zs_stats zs_nodata zs_geojson_out fst snd].
  rewrite iloc_slice_in_range by lia.
  split; [lia|]. split; [|split; [|auto]].
  - unfold len in *. rewrite length_take, length_drop. lia.
  - intros i Hi. rewrite length_take in Hi.
    rewrite lookup_take_lt by lia. apply lookup_drop.
Qed.

(** Every request of a run is a window of the input: it starts at a
    multiple of the chunk size, holds between one and [B] polygons, the
    [i]-th being polygon [start + i] of the input, and asks for the four
    statistics on the given raster with the given nodata value. *)
Theorem every_call_is_a_window (gdf : list polygon) (r : raster) (B nodata : Z)
    (a : zs_args polygon raster) :
  0 < B ->
  In a (calls_of (trace (run gdf r B nodata))) ->
  exists k : nat,
    Z.of_nat k * B < len gdf /\
    len (zs_vectors a) = Z.min B (len gdf - Z.of_nat k * B) /\
    (forall i : nat, (i < length (zs_vectors a))%nat ->
       zs_vectors a !! i = gdf !! (Z.to_nat (Z.of_nat k * B) + i)%nat) /\
    zs_raster a = r /\ zs_stats a = ["mean"; "min"; "count"; "nodata"] /\
    zs_nodata a = nodata /\ zs_geojson_out a = false.
Proof. apply call_window. Qed.

Lemma accumulate_stops_at_failure
    (pre post : list (zs_args polygon raster)) (a : zs_args polygon raster) (e : exn) :
  Forall (fun x => exists records, zonal_stats x = Ok records) pre ->
  zonal_stats a = Raise e ->
  accumulate zonal_stats (pre ++ a :: post) = (pre ++ [a], Raise e).
Proof.
  intros Hpre Ha. induction Hpre as [|x pre [records Hx] _ IH]; cbn.
  - rewrite Ha. reflexivity.
  - rewrite Hx, IH. reflexivity.
Qed.

(** When rasterstats fails on a batch, the run ends with that exception:
    the batches before it were asked, the failing one is the last request,
    no later batch is asked and no partial list is returned. *)
Theorem failing_batch_aborts_run (gdf : list polygon) (r : raster) (B nodata : Z)
    (pre post : list (Z * Z)) (b : Z * Z) (e : exn) :
  0 < B ->
  batch_bounds (len gdf) B = pre ++ b :: post ->
  (forall b', In b' pre ->
     exists records, zonal_stats (batch_request gdf r nodata b') = Ok records) ->
  zonal_stats (batch_request gdf r nodata b) = Raise e ->
  outcome (run gdf r B nodata) = Raise e /\
  calls_of (trace (run gdf r B nodata))
    = map (batch_request gdf r nodata) (pre ++ [b]).
Proof.
  intros HB Hsplit Hpre Hb.
  destruct (run_refines_design zonal_stats (geometry := geometry) gdf r B nodata HB)
    as [-> ->].
  unfold chunked_design. rewrite Hsplit, map_app. cbn [map].
  rewrite (accumulate_stops_at_failure _ _ _ e).
  - rewrite map_app. split; reflexivity.
  - apply List.Forall_forall. intros x Hx.
    apply in_map_iff in Hx as (b' & <- & Hb'). apply Hpre, Hb'.
  - exact Hb.
Qed.

Lemma batch_bounds_single (N B : Z) :
  0 < N -> N <= B -> batch_bounds N B = [(0, N)].
Proof.
  intros HN HB. unfold batch_bounds, batch_count.
  assert ((N + B - 1) / B = 1) as ->.
  { replace (N + B - 1) with ((N - 1) + 1 * B) by lia.
    rewrite Z.div_add, Z.div_small by lia. reflexivity. }
  change (Z.to_nat 1) with 1%nat. cbn [seq map Z.of_nat].
  f_equal. f_equal; lia.
Qed.

(** With a chunk size of at least [N], a non-empty input goes to
    rasterstats in one request that holds all of it, and the run ends as
    that request does. *)
Theorem large_chunk_is_one_call (gdf : list polygon) (r : raster) (B nodata : Z) :
  gdf <> [] -> len gdf <= B ->
  calls_of (trace (run gdf r B nodata))
    = [{| zs_vectors := gdf; zs_raster := r;
          zs_stats := ["mean"; "min"; "count"; "nodata"];
          zs_nodata := nodata; zs_geojson_out := false |}] /\
  outcome (run gdf r B nodata)
    = zonal_stats {| zs_vectors := gdf; zs_raster := r;
                     zs_stats := ["mean"; "min"; "count"; "nodata"];
                     zs_nodata := nodata; zs_geojson_out := false |}.
Proof.
  intros Hne HB.
  assert (0 < len gdf) as HN by (destruct gdf; [contradiction | unfold len; cbn; lia]).
  destruct (run_refines_design zonal_stats (geometry := geometry) gdf r B nodata
              ltac:(lia)) as [-> ->].
  unfold chunked_design. rewrite (batch_bounds_single _ _ HN HB).
  cbn [map accumulate]. unfold batch_request. cbn [fst snd].
  rewrite iloc_slice_in_range by lia.
  assert (take (Z.to_nat (len gdf - 0)) (drop (Z.to_nat 0) gdf) = gdf) as ->.
  { change (Z.to_nat 0) with 0%nat. rewrite drop_0. apply take_ge. unfold len. lia. }
  destruct (zonal_stats _) as [records|e]; cbn; [rewrite app_nil_r|]; auto.
Qed.

(** The whole trace of a run in which rasterstats answers every request:
    the opening line, then for each batch in order its progress line,
    naming the first and the last row of the batch, and its request. *)
Theorem run_trace_when_all_succeed (gdf : list polygon) (r : raster) (B nodata : Z) :
  0 < B ->
  (forall a, exists records, zonal_stats a = Ok records) ->
  trace (run gdf r B nodata)
  = EvPrint (MsgStarting (len gdf) B)
    :: concat (map (fun b => [EvPrint (MsgProcessing (fst b) (snd b - 1));
                              EvZonalStats (batch_request gdf r nodata b)])
                   (batch_bounds (len gdf) B)).
Proof.
  intros HB Hok. unfold run_chunked_zonal_stats.
  assert (0 <= len gdf) as HN by (unfold len; lia).
  rewrite (py_range_batch_starts _ _ HN HB).
  unfold print, emit, lift, bind at 1 2, trace. cbn [app].
  set (body := fun (start : Z) (all_stats : list stats_record) => _).
  assert (forall bs acc,
            (forall b, In b bs -> snd b = Z.min (fst b + B) (len gdf)) ->
            fst (for_each (map fst bs) body acc)
            = concat (map (fun b => [EvPrint (MsgProcessing (fst b) (snd b - 1));
                                     EvZonalStats (batch_request gdf r nodata b)]) bs))
    as Hloop.
  { induction bs as [|b bs IH]; intros acc Hbs; [reflexivity|].
    cbn [map for_each concat]. unfold body at 1.
    unfold call_zonal_stats, print, emit, lift, ret, bind.
    rewrite <- (Hbs b (or_introl eq_refl)).
    fold (batch_request gdf r nodata (fst b, snd b)).
    destruct (Hok (batch_request gdf r nodata (fst b, snd b))) as [records Hrec].
    unfold batch_request in Hrec at 1. cbn [fst snd] in Hrec.
    unfold REQUESTED_STATS. rewrite Hrec. cbn [app].
    specialize (IH (acc ++ records) (fun b' Hb' => Hbs b' (or_intror Hb'))).
    destruct (for_each (map fst bs) body (acc ++ records)) as [t out].
    cbn [fst] in IH. cbn. rewrite IH. destruct b; reflexivity. }
  specialize (Hloop (batch_bounds (len gdf) B) []
                (fun b Hb => batch_bounds_snd _ _ _ Hb)).
  destruct (for_each _ body []) as [t out]. cbn [fst] in *. rewrite Hloop. reflexivity.
Qed.

End AggregatorEdges.

(** ** The derived values at their edges *)

Lemma truthy_iff (d : pydict) : truthy (Some d) = true <-> d <> ∅.
Proof.
  unfold truthy. rewrite negb_true_iff, bool_decide_eq_false. reflexivity.
Qed.

Lemma py_gt_raises (a b : pyval) (e : exn) :
  py_gt a b = Raise e <-> (a = PyNone \/ b = PyNone) /\ e = TypeError.
Proof.
  unfold py_gt. destruct a as [|x|x], b as [|y|y]; cbn; split;
    try (intros [= <-]; auto); try (intros [_ ->]; reflexivity);
    try discriminate; intros [[H|H] _]; discriminate H.
Qed.

(** The mean of line 83: a null or an empty record gives [None] without
    looking any key up; a record that holds [mean] gives that value; the
    expression raises only on a non-empty record without the [mean] key,
    and then it is KeyError("mean"). *)
Theorem burn_mean_of_cases :
  burn_mean_of None = Ok PyNone /\
  burn_mean_of (Some ∅) = Ok PyNone /\
  (forall (d : pydict) v, d !! "mean" = Some v -> burn_mean_of (Some d) = Ok v) /\
  (forall s e,
     burn_mean_of s = Raise e <->
     exists d, s = Some d /\ d <> ∅ /\ d !! "mean" = None /\ e = KeyError "mean").
Proof.
  split; [reflexivity|]. split; [reflexivity|]. split.
  - intros d v Hv. cbn [burn_mean_of].
    rewrite (truthy_nonempty _ _ _ Hv). unfold getitem. rewrite Hv. reflexivity.
  - intros s e. split.
    + destruct s as [d|]; [|discriminate]. cbn [burn_mean_of].
      destruct (truthy (Some d)) eqn:Ht; [|discriminate].
      apply truthy_iff in Ht. unfold getitem.
      destruct (d !! "mean") eqn:Hm; [discriminate|].
      intros [= <-]. exists d. auto.
    + intros (d & -> & Hne & Hm & ->). cbn [burn_mean_of].
      apply truthy_iff in Hne. rewrite Hne. unfold getitem. rewrite Hm. reflexivity.
Qed.

(** The flag of lines 84-86 raises in three cases only, all on a non-empty
    record: [min] is missing (KeyError); [min] is not the sentinel and
    [count] is missing (KeyError); [min] is not the sentinel and [count] or
    the [nodata] entry is [None] (TypeError). *)
Theorem burn_exposed_of_raises (s : stats_record) (e : exn) :
  burn_exposed_of s = Raise e <->
  exists d, s = Some d /\ d <> ∅ /\
    ((d !! "min" = None /\ e = KeyError "min") \/
     (exists mn, d !! "min" = Some mn /\
        (forall q, finite_value mn = Some q -> ~ (q == inject_Z 65535)%Q) /\
        ((d !! "count" = None /\ e = KeyError "count") \/
         (exists cnt, d !! "count" = Some cnt /\
            (cnt = PyNone \/ d !! "nodata" = Some PyNone) /\ e = TypeError)))).
Proof.
  split.
  - destruct s as [d|]; [|discriminate]. cbn [burn_exposed_of].
    destruct (truthy (Some d)) eqn:Ht; [|discriminate].
    apply truthy_iff in Ht. unfold getitem. intros H. exists d.
    split; [reflexivity|]. split; [exact Ht|].
    destruct (d !! "min") as [mn|] eqn:Hmn; [|left; injection H as <-; auto].
    right. exists mn. split; [reflexivity|].
    destruct (py_ne mn (PyInt NODATA_SENTINEL)) eqn:Hne; [|discriminate].
    split; [apply py_ne_sentinel, Hne|].
    destruct (d !! "count") as [cnt|] eqn:Hcnt; [|left; injection H as <-; auto].
    right. exists cnt. split; [reflexivity|].
    destruct (py_gt cnt (dict_get d "nodata" (PyInt 0))) as [[|]|e'] eqn:Hgt;
      try discriminate.
    injection H as <-. apply py_gt_raises in Hgt as [[Hc|Hn] ->]; split; auto.
    right. unfold dict_get in Hn. destruct (d !! "nodata") as [nd|]; cbn in Hn;
      [rewrite Hn; reflexivity | discriminate].
  - intros (d & -> & Hne & H). cbn [burn_exposed_of].
    apply truthy_iff in Hne. rewrite Hne. unfold getitem.
    destruct H as [[Hmn ->]|(mn & Hmn & Hsent & H)]; rewrite Hmn; [reflexivity|].
    apply py_ne_sentinel in Hsent. rewrite Hsent.
    destruct H as [[Hcnt ->]|(cnt & Hcnt & Hnone & ->)]; rewrite Hcnt; [reflexivity|].
    assert (py_gt cnt (dict_get d "nodata" (PyInt 0)) = Raise TypeError) as ->;
      [|reflexivity].
    apply py_gt_raises. split; [|reflexivity].
    destruct Hnone as [->|Hnd]; [auto|]. right. unfold dict_get. rewrite Hnd.
    reflexivity.
Qed.

(** A minimum equal to the sentinel ends the test at once: the flag is 0
    and neither [count] nor [nodata] is read, so it is 0 even when they
    are missing or [None]. *)
Theorem sentinel_min_short_circuits (d : pydict) (mn : pyval) (q : Q) :
  d !! "min" = Some mn -> finite_value mn = Some q -> (q == inject_Z 65535)%Q ->
  burn_exposed_of (Some d) = Ok 0 /\
  burn_exposed_of (Some (delete "count" (delete "nodata" d))) = Ok 0.
Proof.
  intros Hmn Hq Heq.
  assert (py_ne mn (PyInt NODATA_SENTINEL) = false) as Hne.
  { apply not_true_iff_false. intros H. exact (proj1 (py_ne_sentinel mn) H q Hq Heq). }
  assert (forall d', d' !! "min" = Some mn -> burn_exposed_of (Some d') = Ok 0) as Hall.
  { intros d' Hmn'. unfold burn_exposed_of.
    rewrite (truthy_nonempty _ _ _ Hmn'). unfold getitem. rewrite Hmn', Hne.
    reflexivity. }
  split; [apply Hall, Hmn|]. apply Hall.
  rewrite !lookup_delete_ne by discriminate. exact Hmn.
Qed.

(** A record whose count does not exceed its nodata count is not exposed,
    whatever its minimum; the nodata count is 0 when the key is missing. *)
Theorem count_not_above_nodata_not_exposed
    (d : pydict) (mn cnt : pyval) (c n : Q) :
  d !! "min" = Some mn -> d !! "count" = Some cnt ->
  finite_value cnt = Some c ->
  finite_value (default (PyInt 0) (d !! "nodata")) = Some n ->
  (c <= n)%Q ->
  burn_exposed_of (Some d) = Ok 0.
Proof.
  intros Hmn Hcnt Hc Hn Hle.
  rewrite (burn_exposed_of_eval d mn cnt c n Hmn Hcnt Hc Hn).
  apply Qltb_false in Hle. rewrite Hle, andb_false_r. reflexivity.
Qed.

(** ** The normaliser on equal means *)

Lemma in_list_lookup {A} (l : list A) (x : A) : In x l -> exists i, l !! i = Some x.
Proof. intros H. apply list_elem_of_In, list_elem_of_lookup in H. exact H. Qed.

Lemma lookup_in_list {A} (l : list A) (i : nat) (x : A) : l !! i = Some x -> In x l.
Proof. intros H. apply list_elem_of_In, list_elem_of_lookup. eauto. Qed.

(** When all the non-null means are one and the same finite value, every
    burn_norm is null: each quotient is zero over zero. *)
Theorem equal_means_give_null_norms (means : list float64) (a b : Q) :
  series_min means = Fin a -> series_max means = Fin b -> (a == b)%Q ->
  burn_norm means = map (fun _ => NaN) means /\
  forall i, (i < length means)%nat -> burn_norm means !! i = Some NaN.
Proof.
  intros Ha Hb Hab. rewrite (burn_norm_degenerate means a b Ha Hb Hab).
  split; [reflexivity|]. intros i Hi.
  destruct (lookup_lt_is_Some_2 means i Hi) as [x Hx].
  apply list_lookup_fmap_Some. exists x. auto.
Qed.

(** ** The script as a whole *)

Section ScriptEdges.

Context {geometry polygon raster : Type}.
Variable zonal_stats : zs_args polygon raster -> result (list stats_record).
Variable buffer : geometry -> Z -> polygon.

Local Abbreviation run_script := (script zonal_stats buffer).

Lemma omap_trace_bind {A B X} (f : event geometry polygon raster -> option X)
    (m : M geometry polygon raster A) (k : A -> M geometry polygon raster B) :
  omap f (trace (bind m k))
  = omap f (trace m)
    ++ match outcome m with
       | Ok a => omap f (trace (k a))
       | Raise _ => []
       end.
Proof.
  unfold bind, trace, outcome. destruct m as [t [a|e]]; cbn [fst snd].
  - destruct (k a) as [t' r]. cbn [fst]. apply omap_app.
  - rewrite app_nil_r. reflexivity.
Qed.


Lemma silent_bind {A B X} (f : event geometry polygon raster -> option X)
    (m : M geometry polygon raster A) (k : A -> M geometry polygon raster B) :
  omap f (trace m) = [] -> (forall a, omap f (trace (k a)) = []) ->
  omap f (trace (bind m k)) = [].
Proof.
  intros Hm Hk. rewrite omap_trace_bind, Hm. destruct (outcome m); [apply Hk | reflexivity].
Qed.



Lemma script_calls (pipe : frame geometry polygon) (fire_file : raster) :
  calls_of (trace (run_script pipe fire_file))
  = match frame_geometry pipe with
    | Ok geoms =>
        calls_of (trace (run_chunked_zonal_stats (geometry := geometry) zonal_stats
                           (map (fun g => buffer g BUFFER_DISTANCE) geoms) fire_file
                           DEFAULT_CHUNK_SIZE DEFAULT_NODATA))
    | Raise _ => []
    end.
Proof.
  unfold script, calls_of.
  rewrite omap_trace_bind.
  change (omap is_call (trace (print MsgBuffering))) with (@nil (zs_args polygon raster)).
  change (outcome (print MsgBuffering)) with (@Ok unit tt). cbn [app].
  rewrite omap_trace_bind.
  change (omap is_call (trace (lift (frame_geometry pipe))))
    with (@nil (zs_args polygon raster)).
  change (outcome (lift (frame_geometry pipe))) with (frame_geometry pipe). cbn [app].
  destruct (frame_geometry pipe) as [geoms|e]; [|reflexivity].
  rewrite omap_trace_bind.
  change (omap is_call (trace (print MsgCalculating))) with (@nil (zs_args polygon raster)).
  change (outcome (print MsgCalculating)) with (@Ok unit tt). cbn [app].
  rewrite omap_trace_bind. unfold run_chunked_zonal_stats_defaults.
  set (agg := run_chunked_zonal_stats (geometry := geometry) zonal_stats
                (map (fun g => buffer g BUFFER_DISTANCE) geoms) fire_file
                DEFAULT_CHUNK_SIZE DEFAULT_NODATA).
  rewrite <- (app_nil_r (omap is_call (trace agg))) at 2.
  f_equal. destruct (outcome agg) as [records|e]; [|reflexivity].
  repeat (apply silent_bind; [reflexivity | intros ?]).
  apply silent_bind.
  - unfold to_file. apply silent_bind; [reflexivity | intros; reflexivity].
  - intros ?. apply silent_bind; [reflexivity | intros; reflexivity].
Qed.

(** Whatever the size of the layer, rasterstats is never handed more than
    10000 polygons at a time: every request of the script holds between 1
    and 10000 buffers, each the 500-unit buffer of a geometry of the
    layer, against the burn raster with nodata 65535. *)
Theorem script_requests_bounded (pipe : frame geometry polygon) (fire_file : raster)
    (a : zs_args polygon raster) :
  In a (calls_of (trace (run_script pipe fire_file))) ->
  exists geoms,
    frame_geometry pipe = Ok geoms /\
    1 <= len (zs_vectors a) <= 10000 /\
    (forall p, In p (zs_vectors a) -> exists g, In g geoms /\ p = buffer g 500) /\
    zs_raster a = fire_file /\ zs_nodata a = 65535 /\
    zs_stats a = ["mean"; "min"; "count"; "nodata"].
Proof.
  rewrite script_calls. destruct (frame_geometry pipe) as [geoms|e]; [|intros []].
  intros Hin. exists geoms. split; [reflexivity|].
  assert (0 < DEFAULT_CHUNK_SIZE) as Hpos by reflexivity.
  destruct (call_window zonal_stats (geometry := geometry) _ _ _ _ a Hpos Hin)
    as (k & Hk & Hlen & Hrows & Hr & Hst & Hnd & _).
  unfold DEFAULT_CHUNK_SIZE, DEFAULT_NODATA, BUFFER_DISTANCE in *.
  split; [lia|]. split; [|auto].
  intros p Hp. destruct (in_list_lookup _ _ Hp) as [i Hi].
  rewrite Hrows in Hi by (apply lookup_lt_Some in Hi; exact Hi).
  apply lookup_in_list, in_map_iff in Hi as (g & <- & Hg). eauto.
Qed.

(** *** With rasterstats computing each feature on its own *)

Variable feature_stats : raster -> list string -> Z -> polygon -> stats_record.

Hypothesis zonal_stats_per_feature :
  forall a,
    zonal_stats a
    = Ok (map (feature_stats (zs_raster a) (zs_stats a) (zs_nodata a)) (zs_vectors a)).


End ScriptEdges.

(** ** [range] *)

Lemma range_items_In (lo step x : Z) (n : nat) :
  In x (range_items lo step n) <-> exists k, 0 <= k < Z.of_nat n /\ x = lo + k * step.
Proof.
  rewrite range_items_seq, in_map_iff. split.
  - intros (k & <- & Hk). apply in_seq in Hk. exists (Z.of_nat k). split; [lia | reflexivity].
  - intros (k & Hk & ->). exists (Z.to_nat k).
    split; [rewrite Z2Nat.id by lia; reflexivity|].
    apply in_seq. lia.
Qed.

(** [range(lo, hi, step)] with a non-zero step holds exactly the values
    [lo + k*step], [k >= 0], on the near side of [hi]: below it for a
    positive step, above it for a negative one. *)
Theorem py_range_elements (lo hi step x : Z) :
  step <> 0 ->
  exists items,
    py_range lo hi step = Ok items /\
    (In x items <->
     (exists k, 0 <= k /\ x = lo + k * step) /\
     (if 0 <? step then x < hi else hi < x)).
Proof.
  intros Hstep. unfold py_range. destruct (Z.eqb_spec step 0); [contradiction|].
  eexists. split; [reflexivity|]. rewrite range_items_In. unfold range_length.
  destruct (Z.ltb_spec 0 step) as [Hpos|Hneg]; cbn [andb].
  - destruct (Z.ltb_spec lo hi) as [Hlt|Hge].
    + pose proof (Z.div_mod (hi - 1 - lo) step ltac:(lia)) as E.
      pose proof (Z.mod_pos_bound (hi - 1 - lo) step Hpos) as Hm.
      assert (0 <= (hi - 1 - lo) / step) by (apply Z.div_pos; lia).
      split.
      * intros (k & Hk & ->). rewrite Z2Nat.id in Hk by lia.
        split; [exists k; split; [lia | reflexivity]|].
        assert (k * step <= (hi - 1 - lo) / step * step)
          by (apply Z.mul_le_mono_nonneg_r; lia).
        lia.
      * intros [(k & Hk & ->) Hx]. exists k. split; [|reflexivity].
        split; [lia|]. rewrite Z2Nat.id by lia.
        assert (k <= (hi - 1 - lo) / step); [|lia].
        apply Z.div_le_lower_bound; [lia|]. lia.
    + destruct (Z.ltb_spec step 0); [lia|]. cbn [andb Z.to_nat Z.of_nat].
      split; [intros (k & Hk & _); lia|].
      intros [(k & Hk & ->) Hx]. nia.
  - assert (step < 0) as Hneg' by lia.
    destruct (Z.ltb_spec step 0) as [_|]; [|lia]. cbn [andb].
    destruct (Z.ltb_spec hi lo) as [Hlt|Hge].
    + pose proof (Z.div_mod (lo - 1 - hi) (- step) ltac:(lia)) as E.
      pose proof (Z.mod_pos_bound (lo - 1 - hi) (- step) ltac:(lia)) as Hm.
      assert (0 <= (lo - 1 - hi) / - step) by (apply Z.div_pos; lia).
      split.
      * intros (k & Hk & ->). rewrite Z2Nat.id in Hk by lia.
        split; [exists k; split; [lia | reflexivity]|].
        assert (k * - step <= (lo - 1 - hi) / - step * - step)
          by (apply Z.mul_le_mono_nonneg_r; lia).
        lia.
      * intros [(k & Hk & ->) Hx]. exists k. split; [|reflexivity].
        split; [lia|]. rewrite Z2Nat.id by lia.
        assert (k <= (lo - 1 - hi) / - step); [|lia].
        apply Z.div_le_lower_bound; [lia|]. lia.
    + cbn [Z.to_nat Z.of_nat].
      split; [intros (k & Hk & _); lia|].
      intros [(k & Hk & ->) Hx]. nia.
Qed.

(** * The properties on the concrete instance *)

Lemma sample_zonal_stats_per_feature (a : zs_args Z unit) :
  sample_zonal_stats a
  = Ok (map (sample_feature_stats (zs_raster a) (zs_stats a) (zs_nodata a)) (zs_vectors a)).
Proof. reflexivity. Qed.

Lemma one_record_per_buffer_in_order_witness :
  exists records,
    outcome (sample_run [0; 1; 2; 3; 4] 2) = Ok records /\
    length records = 5%nat /\
    (forall i p, [0; 1; 2; 3; 4] !! i = Some p ->
       records !! i = Some (sample_feature_stats tt REQUESTED_STATS 65535 p)) /\
    (forall i, 5 <= i -> records !! i = None)%nat.
Proof.
  apply (one_record_per_buffer_in_order (geometry := Z)
           sample_zonal_stats sample_feature_stats sample_zonal_stats_per_feature
           [0; 1; 2; 3; 4] tt 2 65535).
  lia.
Defined.

Lemma burn_exposed_iff_rule_witness :
  burn_exposed_of (sample_record 0) = Ok 1 <-> exposed_rule (sample_record 0).
Proof.
  apply (burn_exposed_iff_rule (sample_record 0)). vm_compute. reflexivity.
Defined.

Lemma chunk_size_invariance_witness :
  exists records,
    outcome (sample_run [0; 1; 2] 3) = Ok records /\
    outcome (sample_run [0; 1; 2] 1) = Ok records /\
    forall B, 0 < B -> outcome (sample_run [0; 1; 2] B) = Ok records.
Proof.
  apply (chunk_size_invariance (geometry := Z)
           sample_zonal_stats sample_feature_stats sample_zonal_stats_per_feature
           [0; 1; 2] tt 65535).
  discriminate.
Defined.

(** C3, as worded, fails on the empty input: a chunk size equal to
    [N = 0] is a zero step for [range], which raises, while the chunk
    size 1 returns the empty list. *)
Lemma chunk_size_invariance_fails_on_empty :
  outcome (sample_run [] (len (@nil Z))) = Raise ValueError /\
  outcome (sample_run [] 1) = Ok [] /\
  outcome (sample_run [] (len (@nil Z))) <> outcome (sample_run [] 1).
Proof.
  split; [reflexivity|]. split; [reflexivity|]. discriminate.
Qed.

Lemma burn_norm_formula_witness :
  burn_norm_with fsub fdiv [Fin 1; NaN; Fin 3; Fin 2] !! 3%nat = Some (Fin (1 # 2)) /\
  burn_norm_with fsub fdiv [Fin 1; NaN; Fin 3; Fin 2] !! 1%nat = Some NaN.
Proof.
  split.
  - destruct (burn_norm_formula fsub fdiv [Fin 1; NaN; Fin 3; Fin 2] 3 (Fin 2)
                (fa_sub_nan _ _ exact_float_arith) (fa_div_nan _ _ exact_float_arith)
                eq_refl) as [H _].
    exact H.
  - destruct (burn_norm_formula fsub fdiv [Fin 1; NaN; Fin 3; Fin 2] 1 NaN
                (fa_sub_nan _ _ exact_float_arith) (fa_div_nan _ _ exact_float_arith)
                eq_refl) as (_ & _ & H).
    exact (H eq_refl).
Defined.

Lemma burn_norm_extremes_witness :
  burn_norm_with fsub fdiv [Fin 1; NaN; Fin 3; Fin 2] !! 0%nat = Some (Fin 0) /\
  burn_norm_with fsub fdiv [Fin 1; NaN; Fin 3; Fin 2] !! 2%nat = Some (Fin 1).
Proof.
  destruct (burn_norm_extremes fsub fdiv [Fin 1; NaN; Fin 3; Fin 2] exact_float_arith)
    as [H _].
  assert (1 < 3)%Q as Hlt by reflexivity.
  split.
  - apply (H 1%Q 3%Q eq_refl eq_refl Hlt 0%nat (Fin 1) eq_refl). reflexivity.
  - apply (H 1%Q 3%Q eq_refl eq_refl Hlt 2%nat (Fin 3) eq_refl); reflexivity.
Defined.

(** C5, as worded, fails when a single value is both the least and the
    greatest: the quotient is zero over zero, null instead of 0.0 or 1.0. *)
Lemma extremes_claim_fails_on_single_value :
  ~ extremes_claim [Fin (3 # 2); NaN; NaN].
Proof.
  intros H. destruct (H ltac:(discriminate) 0%nat (Fin (3 # 2)) eq_refl) as [H0 _].
  specialize (H0 eq_refl). vm_compute in H0. discriminate H0.
Qed.

Lemma chunked_aggregator_algorithm_witness :
  calls_of (trace (sample_run [0; 1; 2; 3; 4] 2))
  = map (batch_request [0; 1; 2; 3; 4] tt 65535) [(0, 2); (2, 4); (4, 5)].
Proof.
  destruct (chunked_aggregator_algorithm (geometry := Z) sample_zonal_stats
              [0; 1; 2; 3; 4] tt 2 65535 ltac:(lia)) as [H _].
  exact (f_equal fst H).
Defined.


Lemma export_frame_effect_witness :
  exists means flags norms,
    columns sample_out
      = columns sample_pipe ++ [("burn_mean", ColFloat means);
                                ("burn_exposed", ColInt flags);
                                ("burn_norm", ColFloat norms)] /\
    geometry_name sample_out = geometry_name sample_pipe /\
    frame_geometry sample_out = frame_geometry sample_pipe /\
    has_column (columns sample_out) BUFFER_COLUMN = false /\
    In (EvToFile geojson_out "GeoJSON" sample_out)
       (trace (script sample_zonal_stats sample_buffer sample_pipe tt)).
Proof.
  apply (export_frame_effect sample_zonal_stats sample_buffer sample_pipe sample_out tt).
  - vm_compute. reflexivity.
  - vm_compute. reflexivity.
Defined.

(** C8, as worded, fails on a layer that already has an attribute called
    [burn_mean]: the assignment of the derived column overwrites it. *)
Lemma frame_claim_fails_on_name_clash :
  outcome (script sample_zonal_stats sample_buffer clash_pipe tt) = Ok clash_out /\
  ~ frame_claim clash_pipe clash_out.
Proof.
  split; [vm_compute; reflexivity|].
  intros [H _].
  specialize (H "burn_mean" (ColObject [PyInt 7; PyInt 8; PyInt 9]) eq_refl).
  vm_compute in H. discriminate H.
Qed.

Lemma missing_nodata_counts_as_zero_witness :
  burn_exposed_of (Some record_without_nodata) = Ok 1.
Proof.
  assert (record_without_nodata !! "nodata" = None) as Hnd by (vm_compute; reflexivity).
  assert (record_without_nodata <> ∅) as Hne.
  { intros E. apply (f_equal (fun d : pydict => d !! "min")) in E.
    vm_compute in E. discriminate E. }
  destruct (missing_nodata_counts_as_zero record_without_nodata Hnd Hne) as [_ H].
  apply (H (PyInt 3) (PyInt 5) (inject_Z 5)).
  - vm_compute. reflexivity.
  - intros q [= <-]. vm_compute. discriminate.
  - vm_compute. reflexivity.
  - reflexivity.
  - reflexivity.
Defined.

Lemma empty_input_no_call_witness :
  outcome (sample_run [] 10000) = Ok [] /\
  calls_of (trace (sample_run [] 10000)) = [].
Proof.
  apply (empty_input_no_call (geometry := Z) sample_zonal_stats tt 10000 65535). lia.
Defined.

(** ** The further properties on the concrete instance *)

Lemma nonpositive_chunk_size_witness :
  calls_of (trace (sample_run [1; 2] (-3))) = [] /\
  (-3 = 0 -> outcome (sample_run [1; 2] (-3)) = Raise ValueError) /\
  (-3 < 0 -> outcome (sample_run [1; 2] (-3)) = Ok []).
Proof.
  apply (nonpositive_chunk_size (geometry := Z) sample_zonal_stats [1; 2] tt (-3) 65535).
  lia.
Defined.

Lemma every_call_is_a_window_witness :
  exists k : nat,
    Z.of_nat k * 2 < 5 /\
    len [2; 3] = Z.min 2 (5 - Z.of_nat k * 2) /\
    (forall i : nat, (i < 2)%nat ->
       [2; 3] !! i = [0; 1; 2; 3; 4] !! (Z.to_nat (Z.of_nat k * 2) + i)%nat) /\
    tt = tt /\ ["mean"; "min"; "count"; "nodata"] = ["mean"; "min"; "count"; "nodata"] /\
    65535 = 65535 /\ false = false.
Proof.
  apply (every_call_is_a_window (geometry := Z) sample_zonal_stats
           [0; 1; 2; 3; 4] tt 2 65535
           (batch_request [0; 1; 2; 3; 4] tt 65535 (2, 4))).
  - lia.
  - vm_compute. right. left. reflexivity.
Defined.

Lemma failing_batch_aborts_run_witness :
  outcome (run_chunked_zonal_stats (geometry := Z) flaky_zonal_stats
             [0; 1; 2; 3; 4] tt 2 65535) = Raise (LibraryError 1) /\
  calls_of (trace (run_chunked_zonal_stats (geometry := Z) flaky_zonal_stats
                     [0; 1; 2; 3; 4] tt 2 65535))
    = map (batch_request [0; 1; 2; 3; 4] tt 65535) ([(0, 2)] ++ [(2, 4)]).
Proof.
  apply (failing_batch_aborts_run (geometry := Z) flaky_zonal_stats
           [0; 1; 2; 3; 4] tt 2 65535 [(0, 2)] [(4, 5)] (2, 4) (LibraryError 1)).
  - lia.
  - reflexivity.
  - intros b' [<-|[]]. eexists. reflexivity.
  - reflexivity.
Defined.

Lemma large_chunk_is_one_call_witness :
  calls_of (trace (sample_run [0; 1; 2] 10000))
    = [{| zs_vectors := [0; 1; 2]; zs_raster := tt;
          zs_stats := ["mean"; "min"; "count"; "nodata"];
          zs_nodata := 65535; zs_geojson_out := false |}] /\
  outcome (sample_run [0; 1; 2] 10000)
    = sample_zonal_stats {| zs_vectors := [0; 1; 2]; zs_raster := tt;
                            zs_stats := ["mean"; "min"; "count"; "nodata"];
                            zs_nodata := 65535; zs_geojson_out := false |}.
Proof.
  apply (large_chunk_is_one_call (geometry := Z) sample_zonal_stats
           [0; 1; 2] tt 10000 65535).
  - discriminate.
  - unfold len. cbn. lia.
Defined.

Lemma run_trace_when_all_succeed_witness :
  trace (sample_run [0; 1; 2; 3; 4] 2)
  = EvPrint (MsgStarting 5 2)
    :: concat (map (fun b => [EvPrint (MsgProcessing (fst b) (snd b - 1));
                              EvZonalStats (batch_request [0; 1; 2; 3; 4] tt 65535 b)])
                   (batch_bounds 5 2)).
Proof.
  apply (run_trace_when_all_succeed (geometry := Z) sample_zonal_stats
           [0; 1; 2; 3; 4] tt 2 65535).
  - lia.
  - intros a. eexists. reflexivity.
Defined.

Lemma sentinel_min_short_circuits_witness :
  burn_exposed_of (Some nodata_only_record) = Ok 0 /\
  burn_exposed_of (Some (delete "count" (delete "nodata" nodata_only_record))) = Ok 0.
Proof.
  apply (sentinel_min_short_circuits nodata_only_record (PyInt 65535) (inject_Z 65535)).
  - vm_compute. reflexivity.
  - reflexivity.
  - reflexivity.
Defined.

Lemma count_not_above_nodata_not_exposed_witness :
  burn_exposed_of (Some nodata_only_record) = Ok 0.
Proof.
  apply (count_not_above_nodata_not_exposed nodata_only_record
           (PyInt 65535) (PyInt 0) (inject_Z 0) 100%Q).
  - vm_compute. reflexivity.
  - vm_compute. reflexivity.
  - reflexivity.
  - vm_compute. reflexivity.
  - vm_compute. discriminate.
Defined.

Lemma equal_means_give_null_norms_witness :
  burn_norm [Fin (3 # 2); NaN; NaN] = map (fun _ => NaN) [Fin (3 # 2); NaN; NaN] /\
  forall i, (i < 3)%nat -> burn_norm [Fin (3 # 2); NaN; NaN] !! i = Some NaN.
Proof.
  apply (equal_means_give_null_norms [Fin (3 # 2); NaN; NaN] (3 # 2) (3 # 2));
    reflexivity.
Defined.

Lemma script_requests_bounded_witness :
  exists geoms,
    frame_geometry sample_pipe = Ok geoms /\
    1 <= len [0; 1; 2] <= 10000 /\
    (forall p, In p [0; 1; 2] -> exists g, In g geoms /\ p = sample_buffer g 500) /\
    tt = tt /\ 65535 = 65535 /\
    ["mean"; "min"; "count"; "nodata"] = ["mean"; "min"; "count"; "nodata"].
Proof.
  apply (script_requests_bounded sample_zonal_stats sample_buffer sample_pipe tt
           (batch_request [0; 1; 2] tt 65535 (0, 3))).
  vm_compute. left. reflexivity.
Defined.


Lemma sample_feature_stats_well_formed (r : unit) (st : list string) (nd p : Z) :
  well_formed (sample_feature_stats r st nd p) = true.
Proof.
  unfold sample_feature_stats, sample_record.
  destruct (p =? 0); [reflexivity|]. destruct (p =? 1); [reflexivity|].
  destruct (p =? 2); reflexivity.
Qed.

Lemma script_succeeds_witness :
  exists out, outcome (script sample_zonal_stats sample_buffer sample_pipe tt) = Ok out.
Proof.
  apply (script_succeeds sample_zonal_stats sample_buffer sample_feature_stats
           sample_zonal_stats_per_feature sample_feature_stats_well_formed
           sample_pipe tt [0; 1; 2]).
  - reflexivity.
  - vm_compute. reflexivity.
Defined.

Lemma py_range_elements_witness :
  exists items,
    py_range 0 5 2 = Ok items /\
    (In 4 items <->
     (exists k, 0 <= k /\ 4 = 0 + k * 2) /\ (if 0 <? 2 then 4 < 5 else 5 < 4)).
Proof.
  apply (py_range_elements 0 5 2 4). lia.
Defined.
